(** * Resume analyzer: a shallow embedding of [app/models/resume_analyzer.py]

    The analyzer is a keyword-matching and rule-scoring utility.  Its methods
    are pure functions of the text, the static vocabularies and the outputs
    of two optional collaborators (a spaCy pipeline and a NER pipeline).

    Modelling conventions.
    - A Python [str] is a [string]; its characters are 7-bit ASCII.  The case
      maps touch the letters A-Z / a-z only and the white-space class is the
      one of [str.isspace] below code point 128; a character code of 128 or
      more is neither a letter nor white space.
    - A Python [int] is a [Z]; [len] results are [nat].
    - A Python list is a [list]; [list.append] is written [l ++ [x]].
    - The [dict] [job_keywords] is a [gmap string (list string)] and the
      local [set] of [extract_skills] is a [gset string].
    - An absent collaborator ([None]) is [None]; a NER call that raises is a
      call that returns [None]. *)

From Stdlib Require Import ZArith Lia Ascii String List Bool.
From stdpp Require Import base gmap strings list fin_maps.

Local Open Scope string_scope.
Local Open Scope list_scope.

(** ** Characters *)

Module Char.

Definition code (c : ascii) : nat := nat_of_ascii c.

(** [c.isupper()] and [c.islower()] on ASCII. *)
Definition isupper (c : ascii) : bool :=
  Nat.leb 65 (code c) && Nat.leb (code c) 90.

Definition islower (c : ascii) : bool :=
  Nat.leb 97 (code c) && Nat.leb (code c) 122.

(** A cased character is a letter. *)
Definition iscased (c : ascii) : bool := isupper c || islower c.

(** [c.isspace()]: TAB, LF, VT, FF, CR, FS, GS, RS, US and SPACE. *)
Definition isspace (c : ascii) : bool :=
  (Nat.leb 9 (code c) && Nat.leb (code c) 13)
  || (Nat.leb 28 (code c) && Nat.leb (code c) 32).

Definition lower (c : ascii) : ascii :=
  if isupper c then ascii_of_nat (code c + 32) else c.

Definition upper (c : ascii) : ascii :=
  if islower c then ascii_of_nat (code c - 32) else c.

Definition space : ascii := " "%char.
Definition newline : ascii := ascii_of_nat 10.

End Char.

(** ** The [str] methods the analyzer calls *)

Module Str.

(** [s.lower()] *)
Fixpoint lower (s : string) : string :=
  match s with
  | EmptyString => EmptyString
  | String c s' => String (Char.lower c) (lower s')
  end.

(** [s.lstrip()] *)
Fixpoint lstrip (s : string) : string :=
  match s with
  | EmptyString => EmptyString
  | String c s' => if Char.isspace c then lstrip s' else s
  end.

(** [s.rstrip()] *)
Fixpoint rstrip (s : string) : string :=
  match s with
  | EmptyString => EmptyString
  | String c s' =>
      match rstrip s' with
      | EmptyString => if Char.isspace c then EmptyString else String c EmptyString
      | r => String c r
      end
  end.

(** [s.strip()] *)
Definition strip (s : string) : string := rstrip (lstrip s).

(** [s.startswith(p)] *)
Fixpoint startswith (p s : string) : bool :=
  match p, s with
  | EmptyString, _ => true
  | String a p', String b s' => Ascii.eqb a b && startswith p' s'
  | String _ _, EmptyString => false
  end.

(** [p in s] *)
Fixpoint contains (p s : string) : bool :=
  startswith p s ||
  match s with
  | EmptyString => false
  | String _ s' => contains p s'
  end.

(** Whether [s] starts inside a word, i.e. with a character that is not
    white space. *)
Definition begins_word (s : string) : bool :=
  match s with
  | EmptyString => false
  | String c _ => negb (Char.isspace c)
  end.

(** [s.split()]: the maximal runs of characters that are not white space. *)
Fixpoint split (s : string) : list string :=
  match s with
  | EmptyString => []
  | String c s' =>
      let rest := split s' in
      if Char.isspace c then rest
      else match rest with
           | w :: ws =>
               if begins_word s' then String c w :: ws
               else String c EmptyString :: w :: ws
           | [] => [String c EmptyString]
           end
  end.

(** [s.split(sep)] for a one-character separator. *)
Fixpoint split_on (sep : ascii) (s : string) : list string :=
  match s with
  | EmptyString => [EmptyString]
  | String c s' =>
      if Ascii.eqb c sep then EmptyString :: split_on sep s'
      else match split_on sep s' with
           | l :: ls => String c l :: ls
           | [] => [String c EmptyString]
           end
  end.

(** [re.sub(r'\s+', ' ', s)]: every maximal run of white space becomes one
    space. *)
Fixpoint sub_whitespace (s : string) : string :=
  match s with
  | EmptyString => EmptyString
  | String c s' =>
      if Char.isspace c then
        match s' with
        | String c' _ =>
            if Char.isspace c' then sub_whitespace s'
            else String Char.space (sub_whitespace s')
        | EmptyString => String Char.space EmptyString
        end
      else String c (sub_whitespace s')
  end.

(** [s.title()]: a letter is upper-cased when the character before it is
    not a letter, and lower-cased otherwise. *)
Fixpoint title_from (previous_is_cased : bool) (s : string) : string :=
  match s with
  | EmptyString => EmptyString
  | String c s' =>
      String (if previous_is_cased then Char.lower c else Char.upper c)
             (title_from (Char.iscased c) s')
  end.

Definition title (s : string) : string := title_from false s.

(** [s.replace(a, b)] for one-character [a] and [b]. *)
Fixpoint replace (a b : ascii) (s : string) : string :=
  match s with
  | EmptyString => EmptyString
  | String c s' => String (if Ascii.eqb c a then b else c) (replace a b s')
  end.

(** [sep.join(l)] *)
Fixpoint join (sep : string) (l : list string) : string :=
  match l with
  | [] => EmptyString
  | [x] => x
  | x :: l' => x +:+ sep +:+ join sep l'
  end.

(** [s[0].upper() + s[1:]] for a non-empty [s]. *)
Definition capitalize_first (s : string) : string :=
  match s with
  | EmptyString => EmptyString
  | String c s' => String (Char.upper c) s'
  end.

End Str.

(** ** Static reference data set up by [ResumeAnalyzer.__init__] *)

(** [self.skill_keywords], in definition order. *)
Definition skill_keywords : list string :=
  [ (* Programming languages *)
    "python"; "java"; "javascript"; "c++"; "c#"; "ruby"; "php"; "swift";
    "kotlin"; "go"; "rust"; "scala"; "r"; "matlab"; "sql"; "typescript";
    "perl"; "shell"; "bash";
    (* Web technologies *)
    "html"; "css"; "react"; "angular"; "vue"; "node.js"; "express"; "django";
    "flask"; "spring"; "asp.net"; "laravel"; "rails"; "bootstrap"; "jquery";
    "ajax";
    (* Databases *)
    "mysql"; "postgresql"; "mongodb"; "redis"; "oracle"; "sql server";
    "firebase"; "cassandra"; "elasticsearch"; "dynamodb";
    (* Cloud platforms *)
    "aws"; "azure"; "google cloud"; "gcp"; "docker"; "kubernetes";
    "terraform"; "jenkins"; "ansible"; "chef"; "puppet";
    (* Data science & ML *)
    "pandas"; "numpy"; "scikit-learn"; "tensorflow"; "pytorch"; "keras";
    "matplotlib"; "seaborn"; "plotly"; "nltk"; "spacy"; "opencv";
    "hadoop"; "spark"; "hive"; "kafka"; "airflow";
    (* Other technologies *)
    "git"; "linux"; "unix"; "ubuntu"; "centos"; "agile"; "scrum"; "jira";
    "confluence"; "excel"; "tableau"; "power bi"; "sap"; "erp" ].

Definition software_engineer_keywords : list string :=
  [ "programming"; "coding"; "software development"; "debugging"; "testing";
    "algorithms"; "data structures"; "oop"; "object oriented";
    "design patterns"; "version control"; "git"; "api"; "rest";
    "microservices" ].

Definition data_scientist_keywords : list string :=
  [ "machine learning"; "deep learning"; "neural networks"; "regression";
    "classification"; "clustering"; "nlp"; "natural language processing";
    "statistical analysis"; "data visualization"; "pandas"; "numpy"; "r";
    "python"; "tensorflow"; "pytorch"; "scikit-learn" ].

Definition web_developer_keywords : list string :=
  [ "html"; "css"; "javascript"; "react"; "angular"; "vue"; "node.js";
    "frontend"; "backend"; "responsive design";
    "cross-browser compatibility"; "rest api"; "json"; "ajax"; "bootstrap";
    "jquery" ].

Definition product_manager_keywords : list string :=
  [ "product strategy"; "roadmap"; "market research"; "user stories";
    "agile"; "scrum"; "sprint"; "product lifecycle"; "ux"; "ui";
    "stakeholder management"; "prioritization"; "metrics"; "kpi" ].

Definition ui_ux_designer_keywords : list string :=
  [ "user experience"; "user interface"; "wireframing"; "prototyping";
    "figma"; "sketch"; "adobe xd"; "usability testing"; "accessibility";
    "design thinking"; "user research"; "information architecture";
    "visual design"; "typography"; "color theory" ].

(** [self.job_keywords] *)
Definition job_keywords : gmap string (list string) :=
  <["software-engineer" := software_engineer_keywords]>
  (<["data-scientist" := data_scientist_keywords]>
  (<["web-developer" := web_developer_keywords]>
  (<["product-manager" := product_manager_keywords]>
  (<["ui-ux-designer" := ui_ux_designer_keywords]> ∅)))).

(** ** The collaborators *)

(** What [preprocess_text] reads of a spaCy token. *)
Record token := Token {
  lemma_ : string;
  is_stop : bool;
  is_punct : bool;
  is_alpha : bool
}.

(** What [extract_skills] reads of an aggregated NER result. *)
Record entity := Entity {
  word : string;
  entity_group : string
}.

(** The analyzer object: [nlp] is the spaCy pipeline or [None];
    [ner_pipeline] is the NER pipeline or [None], and a call of it yields the
    entities or raises ([None]). *)
Record ResumeAnalyzer := {
  nlp : option (string -> list token);
  ner_pipeline : option (string -> option (list entity))
}.

(** ** The analyzer's methods *)

(** [sum(1 for x in xs if p(x))] *)
Definition count_if {A} (p : A -> bool) (xs : list A) : nat :=
  length (List.filter p xs).

(** [sum(1 for x in xs for y in ys if p(x, y))] *)
Definition count_pairs {A B} (p : A -> B -> bool) (xs : list A) (ys : list B)
  : nat :=
  length (flat_map (fun x => List.filter (p x) ys) xs).

(** [preprocess_text]: with spaCy, the lower-cased lemmas of the tokens that
    are alphabetic and neither stop words nor punctuation, joined by spaces;
    without it, the lower-cased text with white-space runs collapsed and the
    ends trimmed. *)
Definition preprocess_text (self : ResumeAnalyzer) (text : string) : string :=
  match nlp self with
  | Some run =>
      let doc := run text in
      let tokens :=
        map (fun t => Str.lower (lemma_ t))
            (List.filter
               (fun t => negb (is_stop t) && negb (is_punct t) && is_alpha t)
               doc) in
      Str.join " " tokens
  | None =>
      let text := Str.lower text in
      let text := Str.sub_whitespace text in
      Str.strip text
  end.

(** The vocabulary scan of [extract_skills]: one loop iteration. *)
Definition match_skill (processed_text : string) (found_skills : list string)
  (skill : string) : list string :=
  if Str.contains (Str.lower skill) processed_text
  then found_skills ++ [Str.title skill]
  else found_skills.

(** [found_skills] as it stands before the duplicates are removed: the
    vocabulary matches, then the entities tagged ORG when the NER pipeline is
    there and its call does not raise. *)
Definition found_skills (self : ResumeAnalyzer) (text : string)
  : list string :=
  let processed_text := Str.lower (preprocess_text self text) in
  let found_skills := fold_left (match_skill processed_text) skill_keywords [] in
  match ner_pipeline self with
  | Some run =>
      match run text with
      | Some ner_results =>
          let org_entities :=
            map word
              (List.filter (fun e => String.eqb (entity_group e) "ORG")
                 ner_results) in
          found_skills ++ org_entities
      | None => found_skills
      end
  | None => found_skills
  end.

(** One iteration of the loop that removes duplicates: the state is the pair
    of [seen] and [unique_skills]. *)
Definition unique_step (st : gset string * list string) (skill : string)
  : gset string * list string :=
  if decide (skill ∈ st.1) then st
  else ({[skill]} ∪ st.1, st.2 ++ [skill]).

Definition extract_skills (self : ResumeAnalyzer) (text : string)
  : list string :=
  let found_skills := found_skills self text in
  let '(seen, unique_skills) := fold_left unique_step found_skills (∅, []) in
  take 20 unique_skills.

Definition action_verbs : list string :=
  [ "managed"; "developed"; "created"; "implemented"; "designed";
    "optimized"; "led"; "collaborated"; "analyzed"; "improved"; "increased";
    "reduced"; "streamlined"; "automated"; "mentored"; "trained";
    "coordinated" ].

(** One iteration of the loop of [extract_experiences]. *)
Definition experience_step (experiences : list string) (line : string)
  : list string :=
  let line_clean := Str.lower (Str.strip line) in
  if Nat.ltb 10 (String.length line_clean)
     && existsb (fun verb => Str.contains verb line_clean) action_verbs
  then
    let formatted_line := Str.strip line in
    match formatted_line with
    | EmptyString => experiences
    | String c rest => experiences ++ [String (Char.upper c) rest]
    end
  else experiences.

Definition extract_experiences (text : string) : list string :=
  let lines := Str.split_on Char.newline text in
  let experiences := fold_left experience_step lines [] in
  take 10 experiences.

Definition calculate_score (text : string) (skills experiences : list string)
  : Z :=
  let score := 0%Z in
  (* Length scoring *)
  let word_count := length (Str.split text) in
  let score :=
    if Nat.leb 200 word_count && Nat.leb word_count 800 then (score + 30)%Z
    else if Nat.ltb 100 word_count then (score + 20)%Z
    else (score + 10)%Z in
  (* Skills diversity scoring *)
  let score :=
    if Nat.leb 10 (length skills) then (score + 25)%Z
    else if Nat.leb 5 (length skills) then (score + 15)%Z
    else (score + 5)%Z in
  (* Experience depth scoring *)
  let score :=
    if Nat.leb 5 (length experiences) then (score + 25)%Z
    else if Nat.leb 2 (length experiences) then (score + 15)%Z
    else (score + 5)%Z in
  (* Keyword density scoring *)
  let keyword_count :=
    count_if (fun keyword => Str.contains (Str.lower keyword) (Str.lower text))
      skill_keywords in
  let score :=
    if Nat.leb 15 keyword_count then (score + 20)%Z
    else if Nat.leb 8 keyword_count then (score + 10)%Z
    else (score + 5)%Z in
  Z.min (Z.max score 0) 100.

(** The fixed sentences of [generate_recommendations]. *)
Definition tip_skills : string :=
  "Add more technical skills and certifications relevant to your field.".
Definition tip_achievements : string :=
  "Include more quantifiable achievements with specific metrics (e.g., 'Increased sales by 25%').".
Definition tip_action_verbs : string :=
  "Use stronger action verbs to describe your accomplishments (e.g., 'Led' instead of 'Helped').".
Definition tip_metrics : string :=
  "Include more quantifiable results to demonstrate impact (e.g., 'Reduced processing time by 40%').".
Definition tip_summary : string :=
  "Add a professional summary or objective at the beginning of your resume.".
Definition tip_typos : string :=
  "Review your resume for typos and grammatical errors.".
Definition tip_formatting : string :=
  "Ensure consistent formatting throughout the document.".
Definition tip_tailor : string :=
  "Tailor your resume for each job application.".

Definition weak_action_verbs : list string :=
  [ "helped"; "assisted"; "worked on"; "was responsible for" ].

Definition strong_action_verbs : list string :=
  [ "managed"; "developed"; "created"; "implemented"; "optimized"; "led" ].

Definition metrics_keywords : list string :=
  [ "%"; "increased"; "decreased"; "improved"; "reduced"; "grew"; "$";
    "saved" ].

(** [verb in exp.lower()] *)
Definition mentions (exp verb : string) : bool :=
  Str.contains verb (Str.lower exp).

Definition weak_count (experiences : list string) : nat :=
  count_pairs mentions experiences weak_action_verbs.

Definition strong_count (experiences : list string) : nat :=
  count_pairs mentions experiences strong_action_verbs.

Definition metrics_count (experiences : list string) : nat :=
  count_pairs mentions experiences metrics_keywords.

(** The loop that collects the keywords of the position absent from the
    text: one iteration. *)
Definition missing_step (text : string) (missing_keywords : list string)
  (keyword : string) : list string :=
  if negb (Str.contains (Str.lower keyword) (Str.lower text))
  then missing_keywords ++ [Str.title keyword]
  else missing_keywords.

(** The f-string of the job-specific recommendation. *)
Definition tip_keywords (job_position : string)
  (missing_keywords : list string) : string :=
  "Consider adding these keywords relevant to "
  +:+ Str.title (Str.replace "-" " " job_position)
  +:+ ": " +:+ Str.join ", " (take 5 missing_keywords).

(** The job-specific block: entered when [job_position] is a non-empty string
    that is a key of [job_keywords]. *)
Definition job_specific (text : string) (job_position : option string)
  (recommendations : list string) : list string :=
  match job_position with
  | Some job_position =>
      match job_position, job_keywords !! job_position with
      | String _ _, Some keywords =>
          let missing_keywords := fold_left (missing_step text) keywords [] in
          match missing_keywords with
          | [] => recommendations
          | _ :: _ =>
              recommendations ++ [tip_keywords job_position missing_keywords]
          end
      | _, _ => recommendations
      end
  | None => recommendations
  end.

(** [generate_recommendations].  [metrics_count < len(experiences) / 2]
    compares an integer with half an integer, which holds exactly when twice
    the count is below the length. *)
Definition generate_recommendations (text : string)
  (skills experiences : list string) (job_position : option string)
  : list string :=
  let recommendations := [] in
  (* General recommendations *)
  let recommendations :=
    if Nat.ltb (length skills) 8 then recommendations ++ [tip_skills]
    else recommendations in
  let recommendations :=
    if Nat.ltb (length experiences) 4 then recommendations ++ [tip_achievements]
    else recommendations in
  (* Check for action verbs in experiences *)
  let recommendations :=
    if Nat.ltb (strong_count experiences) (weak_count experiences)
    then recommendations ++ [tip_action_verbs]
    else recommendations in
  (* Check for metrics *)
  let recommendations :=
    if Nat.ltb (2 * metrics_count experiences) (length experiences)
    then recommendations ++ [tip_metrics]
    else recommendations in
  (* Job-specific recommendations *)
  let recommendations := job_specific text job_position recommendations in
  (* Formatting recommendations *)
  let recommendations :=
    if negb (Str.contains "objective" (Str.lower text))
       && negb (Str.contains "summary" (Str.lower text))
    then recommendations ++ [tip_summary]
    else recommendations in
  (* Fallback recommendations if none were generated *)
  match recommendations with
  | [] => recommendations ++ [tip_typos] ++ [tip_formatting] ++ [tip_tailor]
  | _ :: _ => recommendations
  end.

(** The fixed sentences of [generate_feedback]. *)
Definition headline_excellent : string :=
  "Excellent resume! Well-structured and comprehensive.".
Definition headline_good : string :=
  "Good resume with some room for improvement.".
Definition headline_fair : string :=
  "Fair resume, but needs significant improvements.".
Definition headline_needs : string :=
  "Needs substantial improvements to be competitive.".
Definition sentence_more_content : string :=
  "Consider adding more content to showcase your experience.".
Definition sentence_shorten : string :=
  "Consider shortening your resume to make it more concise.".
Definition sentence_skills : string :=
  "Try to highlight more technical skills relevant to your field.".
Definition sentence_examples : string :=
  "Include more specific examples of your achievements with metrics.".
Definition sentence_summary : string :=
  "Consider adding a professional summary or objective.".
Definition sentence_contact : string :=
  "Make sure your contact information is clearly visible.".

(** [feedback_parts] as it stands before the final [" ".join]. *)
Definition feedback_parts (text : string) (skills experiences : list string)
  (score : Z) : list string :=
  let feedback_parts := [] in
  let feedback_parts :=
    if Z.leb 80 score then feedback_parts ++ [headline_excellent]
    else if Z.leb 60 score then feedback_parts ++ [headline_good]
    else if Z.leb 40 score then feedback_parts ++ [headline_fair]
    else feedback_parts ++ [headline_needs] in
  (* Length feedback *)
  let word_count := length (Str.split text) in
  let feedback_parts :=
    if Nat.ltb word_count 150 then feedback_parts ++ [sentence_more_content]
    else if Nat.ltb 1000 word_count then feedback_parts ++ [sentence_shorten]
    else feedback_parts in
  (* Skills feedback *)
  let feedback_parts :=
    if Nat.ltb (length skills) 5 then feedback_parts ++ [sentence_skills]
    else feedback_parts in
  (* Experience feedback *)
  let feedback_parts :=
    if Nat.ltb (length experiences) 3 then feedback_parts ++ [sentence_examples]
    else feedback_parts in
  (* Keyword feedback *)
  let feedback_parts :=
    if negb (Str.contains "summary" (Str.lower text))
       && negb (Str.contains "objective" (Str.lower text))
    then feedback_parts ++ [sentence_summary]
    else feedback_parts in
  let feedback_parts :=
    if negb (Str.contains "@" text)
       && negb (Str.contains "email" (Str.lower text))
    then feedback_parts ++ [sentence_contact]
    else feedback_parts in
  feedback_parts.

Definition generate_feedback (text : string) (skills experiences : list string)
  (score : Z) : string :=
  Str.join " " (feedback_parts text skills experiences score).

(** The dictionary returned by [analyze]. *)
Record AnalysisResult := {
  result_skills : list string;
  result_experiences : list string;
  result_score : Z;
  result_feedback : string;
  result_recommendations : list string
}.

Definition analyze (self : ResumeAnalyzer) (text : string)
  (job_position : option string) : AnalysisResult :=
  (* Extract skills and experiences *)
  let skills := extract_skills self text in
  let experiences := extract_experiences text in
  (* Calculate score *)
  let score := calculate_score text skills experiences in
  (* Generate feedback and recommendations *)
  let feedback := generate_feedback text skills experiences score in
  let recommendations :=
    generate_recommendations text skills experiences job_position in
  {| result_skills := skills;
     result_experiences := experiences;
     result_score := score;
     result_feedback := feedback;
     result_recommendations := recommendations |}.

(** ** The request layer, [app/routes/resume_analysis.py] *)

Module Routes.

(** What a handler raises: FastAPI's [HTTPException], itself an [Exception],
    or any other exception. *)
Inductive exn :=
| HTTPException (status_code : nat) (detail : string)
| OtherException (message : string).

(** The outcome of a computation that may raise. *)
Inductive outcome (A : Type) :=
| Return (a : A)
| Raise (e : exn).

Arguments Return {A} a.
Arguments Raise {A} e.

Definition bind {A B} (m : outcome A) (k : A -> outcome B) : outcome B :=
  match m with
  | Return a => k a
  | Raise e => Raise e
  end.

Notation "x <- m ;; k" := (bind m (fun x => k))
  (at level 100, m at next level, right associativity).

(** [try: body / except Exception as e: handler(e)] *)
Definition try_except {A} (body : outcome A) (handler : exn -> outcome A)
  : outcome A :=
  match body with
  | Return a => Return a
  | Raise e => handler e
  end.

(** What the handlers read of an uploaded file: its content type; the text
    of [file.file.read().decode("utf-8")]; the texts that PyPDF2 extracts from
    the pages; the texts of the paragraphs of the Word document.  Each of
    the three readers may raise. *)
Record UploadFile := {
  content_type : option string;
  read_decode : outcome string;
  pdf_page_texts : outcome (list string);
  docx_paragraph_texts : outcome (list string)
}.

(** The request body of the text endpoint. *)
Record ResumeTextRequest := {
  request_text : string;
  request_job_position : option string
}.

(** [{file.content_type}] in an f-string. *)
Definition format_content_type (content_type : option string) : string :=
  match content_type with
  | Some s => s
  | None => "None"
  end.

Definition content_type_is (file : UploadFile) (s : string) : bool :=
  match content_type file with
  | Some t => String.eqb t s
  | None => false
  end.

Section Handlers.

(** [str(e)] on an exception; for an [HTTPException] it depends on the
    version of the framework. *)
Variable str : exn -> string.

Variable analyzer : ResumeAnalyzer.

Definition extract_text_from_file (file : UploadFile) : outcome string :=
  try_except
    (if content_type_is file "text/plain" then
       content <- read_decode file ;;
       Return content
     else if content_type_is file "application/pdf" then
       pages <- pdf_page_texts file ;;
       Return (fold_left String.append pages EmptyString)
     else if content_type_is file "application/msword"
             || content_type_is file
                  "application/vnd.openxmlformats-officedocument.wordprocessingml.document"
     then
       paragraphs <- docx_paragraph_texts file ;;
       Return (Str.join (String Char.newline EmptyString) paragraphs)
     else
       Raise (HTTPException 400
                ("Unsupported file type: "
                 +:+ format_content_type (content_type file))))
    (fun e =>
       Raise (HTTPException 500
                ("Error extracting text from file: " +:+ str e))).

Definition analyze_resume_text (request : ResumeTextRequest)
  : outcome AnalysisResult :=
  try_except
    (match Str.strip (request_text request) with
     | EmptyString => Raise (HTTPException 400 "Resume text cannot be empty")
     | String _ _ =>
         (* Perform analysis *)
         let result :=
           analyze analyzer (request_text request)
             (request_job_position request) in
         Return result
     end)
    (fun e =>
       Raise (HTTPException 500 ("Error analyzing resume: " +:+ str e))).

(** The uploaded file object is always truthy, so the [if not file] guard
    never raises. *)
Definition analyze_resume_file (file : UploadFile)
  (job_position : option string) : outcome AnalysisResult :=
  try_except
    ((* Extract text from file *)
     text <- extract_text_from_file file ;;
     match Str.strip text with
     | EmptyString =>
         Raise (HTTPException 400
                  "Could not extract text from file or file is empty")
     | String _ _ =>
         (* Perform analysis *)
         let result := analyze analyzer text job_position in
         Return result
     end)
    (fun e =>
       match e with
       | HTTPException _ _ => Raise e
       | OtherException _ =>
           Raise (HTTPException 500
                    ("Error analyzing resume file: " +:+ str e))
       end).

End Handlers.

End Routes.

(** ** Specification-side definitions

    What the specification says of each operation, written from its words and
    compared with the methods above in the theorems. *)

Module Spec.

(** The four banded factors of the score. *)
Definition length_points (word_count : nat) : Z :=
  if Nat.leb 200 word_count && Nat.leb word_count 800 then 30
  else if Nat.ltb 100 word_count then 20
  else 10.

Definition skill_points (n : nat) : Z :=
  if Nat.leb 10 n then 25 else if Nat.leb 5 n then 15 else 5.

Definition experience_points (n : nat) : Z :=
  if Nat.leb 5 n then 25 else if Nat.leb 2 n then 15 else 5.

Definition keyword_points (n : nat) : Z :=
  if Nat.leb 15 n then 20 else if Nat.leb 8 n then 10 else 5.

(** The number of white-space separated words of the text. *)
Definition word_count (text : string) : nat := length (Str.split text).

(** The number of vocabulary terms that occur in the raw text, compared
    without regard to case. *)
Definition keyword_count (text : string) : nat :=
  count_if (fun keyword => Str.contains (Str.lower keyword) (Str.lower text))
    skill_keywords.

(** A line is kept when its trimmed, lower-cased copy is longer than 10
    characters and contains an action verb. *)
Definition keeps_line (line : string) : bool :=
  Nat.ltb 10 (String.length (Str.lower (Str.strip line)))
  && existsb (fun verb => Str.contains verb (Str.lower (Str.strip line)))
       action_verbs.

(** A line that, once trimmed and lower-cased, begins with an action verb. *)
Definition begins_with_action_verb (line : string) : bool :=
  existsb (fun verb => Str.startswith verb (Str.lower (Str.strip line)))
    action_verbs.

(** Identity of skills up to surrounding white space and case. *)
Definition folded (skill : string) : string := Str.lower (Str.strip skill).

(** No two entries at different positions have the same folded form. *)
Definition distinct_folded (skills : list string) : Prop :=
  forall (i j : nat) (a b : string),
    skills !! i = Some a -> skills !! j = Some b -> i <> j ->
    folded a <> folded b.

(** No two entries at different positions are the same string. *)
Definition distinct_exact (skills : list string) : Prop :=
  forall (i j : nat) (a b : string),
    skills !! i = Some a -> skills !! j = Some b -> i <> j -> a <> b.

(** The first occurrence of each string, in order. *)
Fixpoint keep_first (l : list string) : list string :=
  match l with
  | [] => []
  | x :: l' =>
      x :: filter (fun y => y <> x) (keep_first l')
  end.

(** The number of experience lines that contain at least one of the verbs. *)
Definition lines_mentioning (verbs experiences : list string) : nat :=
  count_if (fun exp => existsb (mentions exp) verbs) experiences.

(** The list of missing keywords for a recognized job position. *)
Definition missing_keywords (text : string) (job_position : option string)
  : list string :=
  match job_position with
  | Some tag =>
      match job_keywords !! tag with
      | Some keywords => fold_left (missing_step text) keywords []
      | None => []
      end
  | None => []
  end.

(** Whether one of the six rules of the recommendation list triggers. *)
Definition rule_fires (text : string) (skills experiences : list string)
  (job_position : option string) : bool :=
  Nat.ltb (length skills) 8
  || Nat.ltb (length experiences) 4
  || Nat.ltb (strong_count experiences) (weak_count experiences)
  || Nat.ltb (2 * metrics_count experiences) (length experiences)
  || negb (Nat.eqb (length (missing_keywords text job_position)) 0)
  || (negb (Str.contains "objective" (Str.lower text))
      && negb (Str.contains "summary" (Str.lower text))).

(** The tip of a rule, when the rule triggers. *)
Definition when (b : bool) (tip : string) : list string :=
  if b then [tip] else [].

(** The keyword-gap tip, when a recognized position has missing keywords. *)
Definition job_tips (text : string) (job_position : option string)
  : list string :=
  match job_position, missing_keywords text job_position with
  | Some tag, _ :: _ =>
      [tip_keywords tag (missing_keywords text job_position)]
  | _, _ => []
  end.

(** The tips of the rules that trigger, in the fixed order. *)
Definition rule_tips (text : string) (skills experiences : list string)
  (job_position : option string) : list string :=
  when (Nat.ltb (length skills) 8) tip_skills
  ++ when (Nat.ltb (length experiences) 4) tip_achievements
  ++ when (Nat.ltb (strong_count experiences) (weak_count experiences))
       tip_action_verbs
  ++ when (Nat.ltb (2 * metrics_count experiences) (length experiences))
       tip_metrics
  ++ job_tips text job_position
  ++ when (negb (Str.contains "objective" (Str.lower text))
           && negb (Str.contains "summary" (Str.lower text))) tip_summary.

(** The opening words of the keyword-gap tip. *)
Definition keyword_gap_opening : string :=
  "Consider adding these keywords relevant to ".

Definition fallback_tips : list string :=
  [tip_typos; tip_formatting; tip_tailor].

(** The enumerated set of job-position tags. *)
Definition recognized_tags : list string :=
  [ "software-engineer"; "data-scientist"; "web-developer";
    "product-manager"; "ui-ux-designer" ].

End Spec.

(** ** Normal forms used in the proofs *)

(** Whether [s] starts with a white-space character. *)
Definition begins_space (s : string) : bool :=
  match s with
  | EmptyString => false
  | String c _ => Char.isspace c
  end.

(** A string whose white space is made of isolated single spaces. *)
Fixpoint tidy (s : string) : Prop :=
  match s with
  | EmptyString => True
  | String c s' =>
      (Char.isspace c = true -> c = Char.space /\ begins_space s' = false)
      /\ tidy s'
  end.

(** ** Notions used by the further properties *)

(** The title-cased vocabulary terms that occur in the preprocessed text, in
    vocabulary order. *)
Definition vocabulary_matches (self : ResumeAnalyzer) (text : string)
  : list string :=
  map Str.title
    (List.filter
       (fun skill => Str.contains (Str.lower skill) (preprocess_text self text))
       skill_keywords).

(** The surface forms of the entities tagged ORG; none when the NER pipeline
    is absent or its call raises. *)
Definition ner_organizations (self : ResumeAnalyzer) (text : string)
  : list string :=
  match ner_pipeline self with
  | Some run =>
      match run text with
      | Some ner_results =>
          map word
            (List.filter (fun e => String.eqb (entity_group e) "ORG")
               ner_results)
      | None => []
      end
  | None => []
  end.

(** The headline of the feedback for a score. *)
Definition headline (score : Z) : string :=
  if Z.leb 80 score then headline_excellent
  else if Z.leb 60 score then headline_good
  else if Z.leb 40 score then headline_fair
  else headline_needs.

(** A string made of white space only. *)
Fixpoint blank (s : string) : bool :=
  match s with
  | EmptyString => true
  | String c s' => Char.isspace c && blank s'
  end.

(** A pattern that begins and ends with a character other than white space
    and whose inner white space is made of isolated single spaces. *)
Definition clean_pattern (p : string) : bool :=
  Str.begins_word p
  && String.eqb (Str.rstrip p) p
  && String.eqb (Str.sub_whitespace p) p.

(** ** Sample inputs *)

(** An analyzer without spaCy whose NER pipeline tags the upper-case word
    PYTHON as an organization. *)
Definition analyzer_with_ner : ResumeAnalyzer :=
  {| nlp := None;
     ner_pipeline :=
       Some (fun _ => Some [Entity "PYTHON" "ORG"; Entity "Bob" "PER"]) |}.

(** An analyzer with neither collaborator. *)
Definition analyzer_bare : ResumeAnalyzer :=
  {| nlp := None; ner_pipeline := None |}.

(** Two experience lines: the first contains two weak verbs, the second one
    strong verb. *)
Definition two_weak_one_strong : list string :=
  [ "Helped and assisted while we designed tools"; "Managed the release" ].

(** A text whose experience lines are the two lines above. *)
Definition two_weak_one_strong_text : string :=
  "helped and assisted while we designed tools"
  +:+ String Char.newline "managed the release".

(** * Properties *)

(** ** Scoring *)

Section Scoring.

Variables (text : string) (skills experiences : list string).

(** The running [score] of [calculate_score] before the clamp is the sum of
    the four banded factors. *)
Lemma calculate_score_unclamped :
  calculate_score text skills experiences
  = Z.min
      (Z.max
         (Spec.length_points (Spec.word_count text)
          + Spec.skill_points (length skills)
          + Spec.experience_points (length experiences)
          + Spec.keyword_points (Spec.keyword_count text)) 0) 100.
Proof.
  unfold calculate_score, Spec.length_points, Spec.skill_points,
    Spec.experience_points, Spec.keyword_points, Spec.word_count,
    Spec.keyword_count.
  repeat match goal with |- context [if ?b then _ else _] => destruct b end;
    reflexivity.
Qed.

Lemma length_points_range (n : nat) : (10 <= Spec.length_points n <= 30)%Z.
Proof.
  unfold Spec.length_points.
  destruct (_ && _); [lia|]. destruct (Nat.ltb _ _); lia.
Qed.

Lemma skill_points_range (n : nat) : (5 <= Spec.skill_points n <= 25)%Z.
Proof.
  unfold Spec.skill_points.
  destruct (Nat.leb 10 n); [lia|]. destruct (Nat.leb 5 n); lia.
Qed.

Lemma experience_points_range (n : nat) :
  (5 <= Spec.experience_points n <= 25)%Z.
Proof.
  unfold Spec.experience_points.
  destruct (Nat.leb 5 n); [lia|]. destruct (Nat.leb 2 n); lia.
Qed.

Lemma keyword_points_range (n : nat) : (5 <= Spec.keyword_points n <= 20)%Z.
Proof.
  unfold Spec.keyword_points.
  destruct (Nat.leb 15 n); [lia|]. destruct (Nat.leb 8 n); lia.
Qed.

(** C1: [calculate_score] is the sum of the four banded factors (word count,
    skill count, experience count, vocabulary terms found in the raw text),
    each band checked in descending order; the result lies in [0,100] and the
    final clamp leaves the sum unchanged. *)
Theorem calculate_score_banded_sum :
  let sum :=
    (Spec.length_points (Spec.word_count text)
     + Spec.skill_points (length skills)
     + Spec.experience_points (length experiences)
     + Spec.keyword_points (Spec.keyword_count text))%Z in
  calculate_score text skills experiences = sum
  /\ (0 <= calculate_score text skills experiences <= 100)%Z
  /\ Z.min (Z.max sum 0) 100 = sum.
Proof.
  intros sum. rewrite calculate_score_unclamped. fold sum.
  pose proof (length_points_range (Spec.word_count text)).
  pose proof (skill_points_range (length skills)).
  pose proof (experience_points_range (length experiences)).
  pose proof (keyword_points_range (Spec.keyword_count text)).
  subst sum. lia.
Qed.

(** C10: the four factors contribute at least 10, 5, 5 and 5 points, so
    [calculate_score] returns a value in [25,100]; the lower bound 0 of the
    clamp is never the value returned. *)
Theorem calculate_score_at_least_25 :
  (10 <= Spec.length_points (Spec.word_count text))%Z
  /\ (5 <= Spec.skill_points (length skills))%Z
  /\ (5 <= Spec.experience_points (length experiences))%Z
  /\ (5 <= Spec.keyword_points (Spec.keyword_count text))%Z
  /\ (25 <= calculate_score text skills experiences <= 100)%Z
  /\ calculate_score text skills experiences <> 0%Z.
Proof.
  rewrite calculate_score_unclamped.
  pose proof (length_points_range (Spec.word_count text)).
  pose proof (skill_points_range (length skills)).
  pose proof (experience_points_range (length experiences)).
  pose proof (keyword_points_range (Spec.keyword_count text)).
  lia.
Qed.

End Scoring.

(** ** Fallback preprocessing *)

Section Preprocessing.

Lemma char_lower_lower (c : ascii) : Char.lower (Char.lower c) = Char.lower c.
Proof. destruct c as [[] [] [] [] [] [] [] []]; reflexivity. Qed.

Lemma char_isspace_lower (c : ascii) :
  Char.isspace (Char.lower c) = Char.isspace c.
Proof. destruct c as [[] [] [] [] [] [] [] []]; reflexivity. Qed.

Lemma lower_lower (s : string) : Str.lower (Str.lower s) = Str.lower s.
Proof.
  induction s as [|c s IH]; simpl; [reflexivity|].
  now rewrite char_lower_lower, IH.
Qed.


Lemma lower_lstrip (s : string) :
  Str.lower (Str.lstrip s) = Str.lstrip (Str.lower s).
Proof.
  induction s as [|c s IH]; simpl; [reflexivity|].
  rewrite char_isspace_lower. now destruct (Char.isspace c).
Qed.

Lemma lower_rstrip (s : string) :
  Str.lower (Str.rstrip s) = Str.rstrip (Str.lower s).
Proof.
  induction s as [|c s IH]; simpl; [reflexivity|].
  rewrite <- IH, char_isspace_lower.
  destruct (Str.rstrip s); simpl; [now destruct (Char.isspace c)|reflexivity].
Qed.

Lemma lower_strip (s : string) :
  Str.lower (Str.strip s) = Str.strip (Str.lower s).
Proof. unfold Str.strip. now rewrite lower_rstrip, lower_lstrip. Qed.

Lemma lower_sub_whitespace (s : string) :
  Str.lower (Str.sub_whitespace s) = Str.sub_whitespace (Str.lower s).
Proof.
  induction s as [|c s IH]; [reflexivity|].
  cbn [Str.sub_whitespace Str.lower]. rewrite char_isspace_lower.
  destruct (Char.isspace c).
  - destruct s as [|c' s']; [reflexivity|].
    cbn [Str.lower] in *. rewrite char_isspace_lower.
    destruct (Char.isspace c'); [exact IH|].
    cbn [Str.lower]. now rewrite IH.
  - cbn [Str.lower]. now rewrite IH.
Qed.

Lemma sub_whitespace_tidy (s : string) : tidy (Str.sub_whitespace s).
Proof.
  induction s as [|c s IH]; [exact I|].
  cbn [Str.sub_whitespace].
  destruct (Char.isspace c) eqn:Hc.
  - destruct s as [|c' s']; [now split|].
    destruct (Char.isspace c') eqn:Hc'; [exact IH|].
    split; [|exact IH]. intros _. split; [reflexivity|].
    cbn [Str.sub_whitespace]. now rewrite Hc'.
  - split; [|exact IH]. cbn. congruence.
Qed.

Lemma tidy_sub_whitespace (s : string) : tidy s -> Str.sub_whitespace s = s.
Proof.
  induction s as [|c s IH]; [reflexivity|].
  intros [Hc Hs]. cbn [Str.sub_whitespace]. rewrite (IH Hs).
  destruct (Char.isspace c); [|reflexivity].
  destruct (Hc eq_refl) as [-> Hb].
  destruct s as [|c' s']; [reflexivity|].
  cbn in Hb. now rewrite Hb.
Qed.

Lemma tidy_lstrip (s : string) : tidy s -> tidy (Str.lstrip s).
Proof.
  induction s as [|c s IH]; [trivial|].
  intros H. simpl. destruct (Char.isspace c); [apply IH, H|exact H].
Qed.

Lemma begins_space_rstrip (s : string) :
  begins_space s = false -> begins_space (Str.rstrip s) = false.
Proof.
  destruct s as [|c s]; [trivial|]. simpl. intros Hc.
  destruct (Str.rstrip s); [now rewrite Hc|exact Hc].
Qed.

Lemma tidy_rstrip (s : string) : tidy s -> tidy (Str.rstrip s).
Proof.
  induction s as [|c s IH]; [trivial|].
  intros [Hc Hs]. simpl. specialize (IH Hs).
  destruct (Str.rstrip s) as [|d r] eqn:Hr.
  - destruct (Char.isspace c) eqn:E; [exact I|].
    split; [|exact I]. simpl. congruence.
  - split; [|exact IH]. intros Hsp. destruct (Hc Hsp) as [-> Hb].
    split; [reflexivity|]. rewrite <- Hr. now apply begins_space_rstrip.
Qed.

Lemma begins_space_lstrip (s : string) : begins_space (Str.lstrip s) = false.
Proof.
  induction s as [|c s IH]; [reflexivity|]. simpl.
  destruct (Char.isspace c) eqn:Hc; [exact IH|exact Hc].
Qed.

Lemma lstrip_fixed (s : string) : begins_space s = false -> Str.lstrip s = s.
Proof. destruct s as [|c s]; [trivial|]. simpl. now intros ->. Qed.

Lemma rstrip_rstrip (s : string) : Str.rstrip (Str.rstrip s) = Str.rstrip s.
Proof.
  induction s as [|c s IH]; [reflexivity|]. simpl.
  destruct (Str.rstrip s) as [|d r] eqn:Hr.
  - destruct (Char.isspace c) eqn:Hc; [reflexivity|]. simpl. now rewrite Hc.
  - cbn [Str.rstrip]. cbn [Str.rstrip] in IH. now rewrite IH.
Qed.

Lemma strip_strip (s : string) : Str.strip (Str.strip s) = Str.strip s.
Proof.
  unfold Str.strip.
  rewrite (lstrip_fixed (Str.rstrip (Str.lstrip s))).
  - apply rstrip_rstrip.
  - apply begins_space_rstrip, begins_space_lstrip.
Qed.

Lemma tidy_strip (s : string) : tidy s -> tidy (Str.strip s).
Proof. intros H. now apply tidy_rstrip, tidy_lstrip. Qed.

(** C9: the fallback preprocessing (no spaCy pipeline: lower-case, collapse
    every white-space run to one space, trim the ends) is idempotent:
    applied to its own output it returns that output unchanged. *)
Theorem preprocess_text_fallback_idempotent (self : ResumeAnalyzer)
  (text : string) :
  nlp self = None ->
  preprocess_text self (preprocess_text self text) = preprocess_text self text.
Proof.
  intros Hnlp. unfold preprocess_text. rewrite Hnlp.
  rewrite lower_strip, lower_sub_whitespace, lower_lower.
  rewrite (tidy_sub_whitespace (Str.strip _)).
  - apply strip_strip.
  - apply tidy_strip, sub_whitespace_tidy.
Qed.

Lemma preprocess_text_fallback_idempotent_witness :
  nlp {| nlp := None; ner_pipeline := None |} = None
  /\ preprocess_text {| nlp := None; ner_pipeline := None |}
       (preprocess_text {| nlp := None; ner_pipeline := None |}
          "  Senior   PYTHON Dev ")
     = preprocess_text {| nlp := None; ner_pipeline := None |}
         "  Senior   PYTHON Dev ".
Proof.
  split; [reflexivity|].
  apply (preprocess_text_fallback_idempotent
           {| nlp := None; ner_pipeline := None |}).
  reflexivity.
Defined.

End Preprocessing.

(** ** Experience extraction *)

Section Experiences.

Lemma strip_nonempty_of_long (line : string) :
  Nat.ltb 10 (String.length (Str.lower (Str.strip line))) = true ->
  Str.strip line <> EmptyString.
Proof. intros H E. rewrite E in H. discriminate H. Qed.

(** One iteration appends the formatted line exactly when the line is kept. *)
Lemma experience_step_spec (experiences : list string) (line : string) :
  experience_step experiences line
  = experiences ++
      (if Spec.keeps_line line
       then [Str.capitalize_first (Str.strip line)] else []).
Proof.
  unfold experience_step, Spec.keeps_line.
  destruct (Nat.ltb 10 _) eqn:Hlen; cbn [andb].
  - destruct (existsb _ action_verbs).
    + pose proof (strip_nonempty_of_long line Hlen) as Hne.
      destruct (Str.strip line); [congruence|reflexivity].
    + now rewrite app_nil_r.
  - now rewrite app_nil_r.
Qed.

(** The loop is a filter followed by a map, appended to what was collected. *)
Lemma experience_loop_spec (lines experiences : list string) :
  fold_left experience_step lines experiences
  = experiences ++
      map (fun line => Str.capitalize_first (Str.strip line))
        (List.filter Spec.keeps_line lines).
Proof.
  revert experiences.
  induction lines as [|line lines IH]; intros experiences; simpl.
  - now rewrite app_nil_r.
  - rewrite IH, experience_step_spec.
    destruct (Spec.keeps_line line); simpl.
    + now rewrite <- app_assoc.
    + now rewrite app_nil_r.
Qed.

(** C2: [extract_experiences] keeps a line exactly when its trimmed,
    lower-cased copy is longer than 10 characters and contains an action verb
    as a substring; it emits the trimmed original line with its first
    character upper-cased, in source-line order, and returns at most 10
    entries. *)
Theorem extract_experiences_spec (text : string) :
  extract_experiences text
  = take 10
      (map (fun line => Str.capitalize_first (Str.strip line))
         (List.filter Spec.keeps_line (Str.split_on Char.newline text)))
  /\ length (extract_experiences text) <= 10.
Proof.
  unfold extract_experiences. rewrite experience_loop_spec. simpl.
  split; [reflexivity|]. rewrite length_take. lia.
Qed.

(** C4: the line "I managed a team of five" is returned although, once
    trimmed, it begins with no action verb: the test of the loop is a
    substring test, where the comments of the source ask for a line that
    starts with an action verb. *)
Theorem extract_experiences_keeps_inner_verb :
  extract_experiences "I managed a team of five" = ["I managed a team of five"]
  /\ Spec.begins_with_action_verb "I managed a team of five" = false
  /\ Spec.keeps_line "I managed a team of five" = true.
Proof. repeat split; vm_compute; reflexivity. Qed.

End Experiences.

(** ** Skill extraction *)

Section Skills.

Implicit Types (l unique_skills : list string) (seen : gset string).

(** The loop that removes duplicates, started from a state in which [seen]
    holds exactly the strings collected so far, collects the first occurrence
    of each string it has not seen. *)
Lemma unique_loop_spec l seen unique_skills :
  (forall x, x ∈ seen <-> x ∈ unique_skills) ->
  (fold_left unique_step l (seen, unique_skills)).2
  = unique_skills ++ filter (fun y => y ∉ unique_skills) (Spec.keep_first l).
Proof.
  revert seen unique_skills.
  induction l as [|x l IH]; intros seen unique_skills Hseen.
  - simpl. now rewrite filter_nil, app_nil_r.
  - cbn [fold_left Spec.keep_first]. unfold unique_step at 2. cbn [fst snd].
    case_decide as Hx.
    + rewrite (IH _ _ Hseen). f_equal.
      rewrite filter_cons_False by (intros Hn; apply Hn, Hseen, Hx).
      rewrite list_filter_filter. apply list_filter_iff.
      intros y. split; [|tauto].
      intros Hy. split; [exact Hy|]. intros ->. apply Hy, Hseen, Hx.
    + rewrite IH.
      * rewrite filter_cons_True by (intros Hn; apply Hx, Hseen, Hn).
        rewrite <- app_assoc. cbn [app]. do 2 f_equal.
        rewrite list_filter_filter. apply list_filter_iff.
        intros y. rewrite not_elem_of_app, list_elem_of_singleton. tauto.
      * intros y. rewrite elem_of_union, elem_of_singleton, elem_of_app,
          list_elem_of_singleton, Hseen. tauto.
Qed.

Lemma keep_first_NoDup l : NoDup (Spec.keep_first l).
Proof.
  induction l as [|x l IH]; simpl; constructor.
  - rewrite list_elem_of_filter. tauto.
  - now apply NoDup_filter.
Qed.

Lemma filter_not_elem_of_nil l : filter (fun y => y ∉ @nil string) l = l.
Proof.
  induction l as [|y l IH]; [reflexivity|].
  rewrite filter_cons_True by apply not_elem_of_nil. now rewrite IH.
Qed.

(** [extract_skills] is the first 20 first occurrences of [found_skills]. *)
Lemma extract_skills_keep_first (self : ResumeAnalyzer) (text : string) :
  extract_skills self text
  = take 20 (Spec.keep_first (found_skills self text)).
Proof.
  unfold extract_skills.
  pose proof (unique_loop_spec (found_skills self text) ∅ []) as H.
  destruct (fold_left unique_step _ _) as [seen unique_skills].
  cbn [snd] in H. rewrite H.
  - cbn [app]. now rewrite filter_not_elem_of_nil.
  - intros x. rewrite elem_of_empty. split; [tauto|]. apply not_elem_of_nil.
Qed.

Lemma extract_skills_NoDup (self : ResumeAnalyzer) (text : string) :
  NoDup (extract_skills self text).
Proof.
  rewrite extract_skills_keep_first.
  eapply sublist_NoDup; [apply keep_first_NoDup|apply sublist_take].
Qed.

(** C6: whatever the NER collaborator does (absent, succeeding or raising),
    [extract_skills] returns at most 20 entries, no two of them the same
    string: it keeps the first occurrence of each exact string, in order, and
    truncates. *)
Theorem extract_skills_at_most_20_no_duplicates (self : ResumeAnalyzer)
  (text : string) :
  length (extract_skills self text) <= 20
  /\ NoDup (extract_skills self text)
  /\ extract_skills self text
     = take 20 (Spec.keep_first (found_skills self text)).
Proof.
  split; [|split].
  - rewrite extract_skills_keep_first, length_take. lia.
  - apply extract_skills_NoDup.
  - apply extract_skills_keep_first.
Qed.

(** C3 (as amended): two entries at different positions of the list returned
    by [extract_skills] are different strings; the comparison is the exact
    one of the [seen] set, not one up to case and surrounding white space. *)
Theorem extract_skills_distinct_exact (self : ResumeAnalyzer) (text : string)
  (i j : nat) (a b : string) :
  extract_skills self text !! i = Some a ->
  extract_skills self text !! j = Some b ->
  i <> j ->
  a <> b.
Proof.
  intros Hi Hj Hij ->. apply Hij.
  eapply NoDup_lookup; [apply extract_skills_NoDup|exact Hi|exact Hj].
Qed.

Lemma extract_skills_distinct_exact_witness :
  extract_skills analyzer_with_ner "PYTHON developer" !! 0 = Some "Python"
  /\ extract_skills analyzer_with_ner "PYTHON developer" !! 2 = Some "PYTHON"
  /\ 0 <> 2
  /\ "Python" <> "PYTHON".
Proof.
  split; [reflexivity|]. split; [reflexivity|]. split; [lia|].
  apply (extract_skills_distinct_exact analyzer_with_ner "PYTHON developer"
           0 2 "Python" "PYTHON"); [reflexivity|reflexivity|lia].
Defined.

(** C3 (as stated) fails: with a NER pipeline that returns PYTHON as an
    organization, the text "PYTHON developer" yields both "Python" (from the
    vocabulary) and "PYTHON" (from NER), which are equal once trimmed and
    case-folded. *)
Lemma extract_skills_not_distinct_folded :
  extract_skills analyzer_with_ner "PYTHON developer"
  = ["Python"; "R"; "PYTHON"]
  /\ Spec.folded "Python" = Spec.folded "PYTHON"
  /\ ~ (forall (self : ResumeAnalyzer) (text : string),
         Spec.distinct_folded (extract_skills self text)).
Proof.
  split; [reflexivity|]. split; [reflexivity|].
  intros H.
  apply (H analyzer_with_ner "PYTHON developer" 0 2 "Python" "PYTHON");
    [reflexivity|reflexivity|lia|reflexivity].
Qed.

End Skills.

(** ** Recommendations *)

Section Recommendations.

Implicit Types (text : string) (skills experiences : list string)
  (job_position : option string).

Lemma job_keywords_unrecognized (tag : string) :
  tag ∉ Spec.recognized_tags -> job_keywords !! tag = None.
Proof.
  unfold Spec.recognized_tags, job_keywords.
  rewrite !not_elem_of_cons. intros (H1 & H2 & H3 & H4 & H5 & _).
  rewrite !lookup_insert_ne by congruence. apply lookup_empty.
Qed.

Lemma job_keywords_empty_tag : job_keywords !! EmptyString = None.
Proof. apply job_keywords_unrecognized. compute_done. Qed.

(** The job-specific block appends the keyword-gap tip, if any. *)
Lemma job_specific_spec text job_position (recommendations : list string) :
  job_specific text job_position recommendations
  = recommendations ++ Spec.job_tips text job_position.
Proof.
  unfold job_specific, Spec.job_tips, Spec.missing_keywords.
  destruct job_position as [tag|]; [|now rewrite app_nil_r].
  destruct tag as [|c tag].
  - rewrite job_keywords_empty_tag. now rewrite app_nil_r.
  - destruct (job_keywords !! String c tag) as [keywords|];
      [|now rewrite app_nil_r].
    destruct (fold_left _ keywords []); [now rewrite app_nil_r|reflexivity].
Qed.

(** [generate_recommendations] returns the tips of the rules that trigger,
    or the three fallback tips when there is none. *)
Lemma generate_recommendations_spec text skills experiences job_position :
  generate_recommendations text skills experiences job_position
  = match Spec.rule_tips text skills experiences job_position with
    | [] => Spec.fallback_tips
    | tips => tips
    end.
Proof.
  unfold generate_recommendations, Spec.rule_tips, Spec.when.
  rewrite job_specific_spec.
  destruct (Nat.ltb (length skills) 8),
    (Nat.ltb (length experiences) 4),
    (Nat.ltb (strong_count experiences) (weak_count experiences)),
    (Nat.ltb (2 * metrics_count experiences) (length experiences)),
    (Spec.job_tips text job_position) as [|tip tips],
    (negb _ && negb _);
    cbn [app]; rewrite <- ?app_assoc, ?app_nil_r; cbn [app];
    try reflexivity; destruct tips; reflexivity.
Qed.

Lemma rule_fires_spec text skills experiences job_position :
  Spec.rule_fires text skills experiences job_position = true
  <-> Spec.rule_tips text skills experiences job_position <> [].
Proof.
  unfold Spec.rule_fires, Spec.rule_tips, Spec.when, Spec.job_tips.
  destruct (Nat.ltb (length skills) 8); [now split|].
  destruct (Nat.ltb (length experiences) 4); [now split|].
  destruct (Nat.ltb (strong_count _) _); [now split|].
  destruct (Nat.ltb (2 * _) _); [now split|].
  cbn [orb app].
  destruct job_position as [tag|].
  - destruct (Spec.missing_keywords text (Some tag)); cbn; [|now split].
    destruct (_ && _); now split.
  - cbn. destruct (_ && _); now split.
Qed.

Lemma elem_of_when (t : string) (b : bool) (tip : string) :
  t ∈ Spec.when b tip <-> b = true /\ t = tip.
Proof.
  destruct b; simpl.
  - rewrite list_elem_of_singleton. tauto.
  - rewrite elem_of_nil. split; [tauto|]. now intros [E _].
Qed.

Lemma tip_keywords_opening (tag : string) (missing : list string) :
  Str.startswith Spec.keyword_gap_opening (tip_keywords tag missing) = true.
Proof. reflexivity. Qed.

Lemma elem_of_job_tips (t : string) text job_position :
  t ∈ Spec.job_tips text job_position ->
  Str.startswith Spec.keyword_gap_opening t = true.
Proof.
  unfold Spec.job_tips.
  destruct job_position as [tag|]; [|now rewrite elem_of_nil].
  destruct (Spec.missing_keywords text (Some tag)); [now rewrite elem_of_nil|].
  rewrite list_elem_of_singleton. intros ->. apply tip_keywords_opening.
Qed.

(** Membership of the action-verbs tip among the rule tips. *)
Lemma action_verbs_tip_in_rule_tips text skills experiences job_position :
  tip_action_verbs ∈ Spec.rule_tips text skills experiences job_position
  <-> Nat.ltb (strong_count experiences) (weak_count experiences) = true.
Proof.
  unfold Spec.rule_tips. rewrite !elem_of_app, !elem_of_when.
  split.
  - intros [[_ H]|[[_ H]|[[H _]|[[_ H]|[H|[_ H]]]]]];
      try exact H; try (exfalso; revert H; compute_done).
    apply elem_of_job_tips in H. exfalso. revert H. compute_done.
  - intros H. right. right. left. now split.
Qed.

(** C5 (as amended): the stronger-action-verbs tip is in the list exactly
    when the number of pairs (experience line, weak verb contained in it)
    exceeds the number of pairs (experience line, strong verb contained in
    it); a line counts once for each of the verbs it contains. *)
Theorem action_verbs_tip_iff_pair_counts text skills experiences job_position :
  tip_action_verbs
    ∈ generate_recommendations text skills experiences job_position
  <-> strong_count experiences < weak_count experiences.
Proof.
  rewrite generate_recommendations_spec, <- Nat.ltb_lt,
    <- (action_verbs_tip_in_rule_tips text skills experiences job_position).
  destruct (Spec.rule_tips text skills experiences job_position);
    [|reflexivity].
  rewrite elem_of_nil. split; [|tauto]. compute_done.
Qed.

(** C5 (as stated) fails: of the two lines below, one contains two weak
    verbs and the other one strong verb, so that one line stands against one
    line, yet the tip is appended because two weak matches stand against one
    strong match. *)
Lemma action_verbs_tip_not_by_lines :
  extract_experiences two_weak_one_strong_text = two_weak_one_strong
  /\ Spec.lines_mentioning weak_action_verbs two_weak_one_strong = 1
  /\ Spec.lines_mentioning strong_action_verbs two_weak_one_strong = 1
  /\ ~ (tip_action_verbs
          ∈ generate_recommendations two_weak_one_strong_text []
              two_weak_one_strong None
        <-> Spec.lines_mentioning strong_action_verbs two_weak_one_strong
            < Spec.lines_mentioning weak_action_verbs two_weak_one_strong).
Proof.
  split; [reflexivity|]. split; [reflexivity|]. split; [reflexivity|].
  intros [H _].
  assert (tip_action_verbs
            ∈ generate_recommendations two_weak_one_strong_text []
                two_weak_one_strong None) as Hin by compute_done.
  apply H in Hin. vm_compute in Hin. lia.
Qed.

Lemma rule_tips_not_fallback text skills experiences job_position :
  Forall (fun tip => tip ∉ Spec.fallback_tips)
    (Spec.rule_tips text skills experiences job_position).
Proof.
  apply Forall_forall. intros t. unfold Spec.rule_tips.
  rewrite !elem_of_app, !elem_of_when.
  intros [[_ ->]|[[_ ->]|[[_ ->]|[[_ ->]|[H|[_ ->]]]]]]; try compute_done.
  apply elem_of_job_tips in H. unfold Spec.fallback_tips.
  rewrite !not_elem_of_cons.
  repeat split; try apply not_elem_of_nil; intros ->; revert H; compute_done.
Qed.

(** C7: [generate_recommendations] never returns the empty list; when no
    rule triggers it returns exactly the three fallback tips in order, and
    when a rule triggers it returns the tips of the rules, none of which is
    a fallback tip. *)
Theorem recommendations_nonempty_fallback_all_or_nothing
  text skills experiences job_position :
  generate_recommendations text skills experiences job_position <> []
  /\ if Spec.rule_fires text skills experiences job_position
     then generate_recommendations text skills experiences job_position
          = Spec.rule_tips text skills experiences job_position
          /\ Forall (fun tip => tip ∉ Spec.fallback_tips)
               (generate_recommendations text skills experiences job_position)
     else generate_recommendations text skills experiences job_position
          = [tip_typos; tip_formatting; tip_tailor].
Proof.
  rewrite generate_recommendations_spec.
  pose proof (rule_fires_spec text skills experiences job_position) as Hf.
  pose proof (rule_tips_not_fallback text skills experiences job_position)
    as Hnf.
  destruct (Spec.rule_fires text skills experiences job_position).
  - destruct (Spec.rule_tips text skills experiences job_position) as [|t r].
    + exfalso. now apply Hf.
    + repeat split; [discriminate|exact Hnf].
  - destruct (Spec.rule_tips text skills experiences job_position) as [|t r].
    + split; [discriminate|reflexivity].
    + exfalso. assert (false = true) as E by now apply Hf. discriminate E.
Qed.

(** C8: a job-position tag outside the enumerated set is ignored: the
    result is the one obtained without a job position, and it holds no
    keyword-gap tip. *)
Theorem unrecognized_tag_ignored text skills experiences (tag : string) :
  tag ∉ Spec.recognized_tags ->
  generate_recommendations text skills experiences (Some tag)
  = generate_recommendations text skills experiences None
  /\ Forall (fun tip => Str.startswith Spec.keyword_gap_opening tip = false)
       (generate_recommendations text skills experiences (Some tag)).
Proof.
  intros Htag. apply job_keywords_unrecognized in Htag.
  assert (generate_recommendations text skills experiences (Some tag)
          = generate_recommendations text skills experiences None) as E.
  { unfold generate_recommendations, job_specific.
    destruct tag; [reflexivity|]. now rewrite Htag. }
  split; [exact E|]. rewrite E, generate_recommendations_spec.
  destruct (Spec.rule_tips text skills experiences None) eqn:Etips.
  - repeat constructor.
  - rewrite <- Etips. apply Forall_forall. intros t.
    unfold Spec.rule_tips, Spec.job_tips.
    rewrite !elem_of_app, !elem_of_when, elem_of_nil.
    intros [[_ ->]|[[_ ->]|[[_ ->]|[[_ ->]|[[]|[_ ->]]]]]]; reflexivity.
Qed.

Lemma unrecognized_tag_ignored_witness :
  ("unknown-tag" ∉ Spec.recognized_tags)
  /\ generate_recommendations two_weak_one_strong_text []
       two_weak_one_strong (Some "unknown-tag")
     = generate_recommendations two_weak_one_strong_text []
         two_weak_one_strong None
  /\ Forall (fun tip => Str.startswith Spec.keyword_gap_opening tip = false)
       (generate_recommendations two_weak_one_strong_text []
          two_weak_one_strong (Some "unknown-tag")).
Proof.
  split; [compute_done|].
  apply (unrecognized_tag_ignored two_weak_one_strong_text []
           two_weak_one_strong "unknown-tag").
  compute_done.
Defined.

End Recommendations.

(** ** The methods on sample inputs *)

Section Samples.

Example str_methods :
  Str.split "  led  a team " = ["led"; "a"; "team"]
  /\ Str.split_on Char.newline ("a" +:+ String Char.newline "b") = ["a"; "b"]
  /\ Str.sub_whitespace "  a   b " = " a b "
  /\ Str.strip "  a  b  " = "a  b"
  /\ Str.title "node.js" = "Node.Js"
  /\ Str.contains "led" (Str.lower "Team LEDGER") = true
  /\ Str.join ", " ["a"; "b"; "c"] = "a, b, c".
Proof. repeat split; reflexivity. Qed.

Example analyze_short_resume :
  let text :=
    "Managed a team of 5 engineers. Developed Python and Java applications." in
  extract_skills analyzer_bare text = ["Python"; "Java"; "R"]
  /\ extract_experiences text
     = ["Managed a team of 5 engineers. Developed Python and Java applications."]
  /\ calculate_score text (extract_skills analyzer_bare text)
       (extract_experiences text) = 25%Z.
Proof. repeat split; reflexivity. Qed.

Example keyword_gap_for_data_scientist :
  generate_recommendations "summary: python and pandas" [] []
    (Some "data-scientist")
  = [ tip_skills; tip_achievements;
      "Consider adding these keywords relevant to Data Scientist: Machine Learning, Deep Learning, Neural Networks, Regression, Classification" ].
Proof. reflexivity. Qed.

End Samples.

(** ** More on preprocessing *)

Section PreprocessingShape.

Lemma lower_append (a b : string) :
  Str.lower (a +:+ b) = Str.lower a +:+ Str.lower b.
Proof. induction a as [|c a IH]; simpl; [reflexivity|now rewrite IH]. Qed.

Lemma lower_join (sep : string) (l : list string) :
  Str.lower (Str.join sep l) = Str.join (Str.lower sep) (map Str.lower l).
Proof.
  induction l as [|x l IH]; [reflexivity|].
  destruct l as [|y l]; [reflexivity|].
  change (Str.join sep (x :: y :: l)) with (x +:+ sep +:+ Str.join sep (y :: l)).
  rewrite !lower_append, IH. reflexivity.
Qed.

(** The output of [preprocess_text] is in lower case, with or without the
    spaCy pipeline: the [.lower()] that [extract_skills] applies to it changes
    nothing. *)
Theorem preprocess_text_lower (self : ResumeAnalyzer) (text : string) :
  Str.lower (preprocess_text self text) = preprocess_text self text.
Proof.
  unfold preprocess_text. destruct (nlp self) as [run|].
  - rewrite lower_join, map_map. f_equal.
    apply map_ext. intros t. apply lower_lower.
  - now rewrite lower_strip, lower_sub_whitespace, lower_lower.
Qed.

Lemma rstrip_cons_word (c : ascii) (s : string) :
  Char.isspace c = false ->
  Str.rstrip (String c s) = String c (Str.rstrip s).
Proof. intros Hc. simpl. rewrite Hc. now destruct (Str.rstrip s). Qed.

Lemma lstrip_sub_whitespace (s : string) :
  Str.lstrip (Str.sub_whitespace s) = Str.sub_whitespace (Str.lstrip s).
Proof.
  induction s as [|c s IH]; [reflexivity|].
  cbn [Str.sub_whitespace Str.lstrip].
  destruct (Char.isspace c) eqn:Hc.
  - destruct s as [|c' s']; [reflexivity|].
    destruct (Char.isspace c') eqn:Hc'; [exact IH|].
    change (Str.lstrip (String Char.space (Str.sub_whitespace (String c' s'))))
      with (Str.lstrip (Str.sub_whitespace (String c' s'))).
    exact IH.
  - cbn [Str.lstrip Str.sub_whitespace]. now rewrite Hc.
Qed.

Lemma split_lstrip (s : string) : Str.split (Str.lstrip s) = Str.split s.
Proof.
  induction s as [|c s IH]; [reflexivity|].
  cbn [Str.lstrip]. destruct (Char.isspace c) eqn:Hc; [|reflexivity].
  rewrite IH. cbn [Str.split]. now rewrite Hc.
Qed.

Lemma join_cons_word (c : ascii) (w : string) (ws : list string) :
  Str.join " " (String c w :: ws) = String c (Str.join " " (w :: ws)).
Proof. destruct ws; reflexivity. Qed.

(** Trimming the right end of the collapsed text leaves the words joined by
    single spaces, after one space when the text starts with white space. *)
Lemma rstrip_sub_whitespace (s : string) :
  Str.rstrip (Str.sub_whitespace s)
  = match Str.split s with
    | [] => EmptyString
    | ws => (if begins_space s then " " else "") +:+ Str.join " " ws
    end.
Proof.
  induction s as [|c s IH]; [reflexivity|].
  cbn [Str.sub_whitespace Str.split begins_space].
  destruct (Char.isspace c) eqn:Hc.
  - destruct s as [|c' s']; [reflexivity|].
    cbn [begins_space] in IH.
    destruct (Char.isspace c') eqn:Hc'; [exact IH|].
    cbn [Str.sub_whitespace] in *. rewrite Hc' in *.
    rewrite rstrip_cons_word in IH by exact Hc'.
    change (Str.rstrip (String Char.space (String c' (Str.sub_whitespace s'))))
      with (match Str.rstrip (String c' (Str.sub_whitespace s')) with
            | EmptyString => EmptyString
            | r => String Char.space r
            end).
    rewrite rstrip_cons_word by exact Hc'.
    destruct (Str.split (String c' s')) as [|w ws]; [discriminate IH|].
    rewrite IH. reflexivity.
  - rewrite rstrip_cons_word by exact Hc. rewrite IH.
    destruct (Str.split s) as [|w ws] eqn:Hsplit; [reflexivity|].
    unfold Str.begins_word. destruct s as [|c' s']; [discriminate Hsplit|].
    cbn [begins_space]. destruct (Char.isspace c'); cbn [negb].
    + reflexivity.
    + rewrite join_cons_word. reflexivity.
Qed.

(** Without the spaCy pipeline, [preprocess_text] returns the white-space
    separated words of the lower-cased text joined by single spaces. *)
Theorem preprocess_text_fallback_words (self : ResumeAnalyzer)
  (text : string) :
  nlp self = None ->
  preprocess_text self text = Str.join " " (Str.split (Str.lower text)).
Proof.
  intros Hnlp. unfold preprocess_text. rewrite Hnlp. unfold Str.strip.
  rewrite lstrip_sub_whitespace, rstrip_sub_whitespace, split_lstrip,
    begins_space_lstrip.
  now destruct (Str.split (Str.lower text)).
Qed.

Lemma preprocess_text_fallback_words_witness :
  nlp analyzer_bare = None
  /\ preprocess_text analyzer_bare "  Senior   PYTHON Dev "
     = Str.join " " (Str.split (Str.lower "  Senior   PYTHON Dev ")).
Proof.
  split; [reflexivity|].
  apply (preprocess_text_fallback_words analyzer_bare). reflexivity.
Defined.

End PreprocessingShape.

(** ** More on skill extraction *)

Section SkillsShape.

Implicit Types (l a b : list string).

Lemma match_loop_spec (processed_text : string) l (found : list string) :
  fold_left (match_skill processed_text) l found
  = found
    ++ map Str.title
         (List.filter
            (fun skill => Str.contains (Str.lower skill) processed_text) l).
Proof.
  revert found. induction l as [|skill l IH]; intros found; simpl.
  - now rewrite app_nil_r.
  - rewrite IH. unfold match_skill.
    destruct (Str.contains _ _); simpl; [now rewrite <- app_assoc|reflexivity].
Qed.

Lemma found_skills_spec (self : ResumeAnalyzer) (text : string) :
  found_skills self text
  = vocabulary_matches self text ++ ner_organizations self text.
Proof.
  unfold found_skills, vocabulary_matches, ner_organizations.
  rewrite match_loop_spec, preprocess_text_lower. cbn [app].
  destruct (ner_pipeline self) as [run|]; [|now rewrite app_nil_r].
  destruct (run text); [reflexivity|now rewrite app_nil_r].
Qed.

Lemma title_vocabulary_NoDup : NoDup (map Str.title skill_keywords).
Proof. compute_done. Qed.

Lemma NoDup_map_filter {A B} (f : A -> B) (p : A -> bool) (xs : list A) :
  NoDup (map f xs) -> NoDup (map f (List.filter p xs)).
Proof.
  induction xs as [|x xs IH]; [trivial|].
  cbn [map List.filter]. rewrite NoDup_cons. intros [Hx Hxs].
  destruct (p x); [|now apply IH].
  cbn [map]. apply NoDup_cons. split; [|now apply IH].
  intros Hin. apply Hx. clear -Hin.
  induction xs as [|y xs IHx]; [exact Hin|].
  cbn [map List.filter] in *. destruct (p y).
  - cbn [map] in Hin. apply elem_of_cons in Hin as [->|Hin].
    + apply elem_of_cons. now left.
    + apply elem_of_cons. right. now apply IHx.
  - apply elem_of_cons. right. now apply IHx.
Qed.

Lemma vocabulary_matches_NoDup (self : ResumeAnalyzer) (text : string) :
  NoDup (vocabulary_matches self text).
Proof. apply NoDup_map_filter, title_vocabulary_NoDup. Qed.

Lemma filter_ne_not_elem_of (x : string) a :
  x ∉ a -> filter (fun y => y <> x) a = a.
Proof.
  induction a as [|y a IH]; [reflexivity|].
  rewrite not_elem_of_cons. intros [Hxy Hxa].
  rewrite filter_cons_True by congruence. now rewrite IH.
Qed.

(** First occurrences of a concatenation whose first part has no duplicate. *)
Lemma keep_first_app a b :
  NoDup a ->
  Spec.keep_first (a ++ b)
  = a ++ filter (fun y => y ∉ a) (Spec.keep_first b).
Proof.
  induction a as [|x a IH]; intros Hnd.
  - cbn [app]. now rewrite filter_not_elem_of_nil.
  - apply NoDup_cons in Hnd as [Hx Ha].
    cbn [app Spec.keep_first]. rewrite (IH Ha), filter_app.
    rewrite (filter_ne_not_elem_of x a Hx), list_filter_filter.
    do 2 f_equal. apply list_filter_iff.
    intros y. rewrite not_elem_of_cons. tauto.
Qed.

(** [extract_skills] returns the vocabulary matches first, in vocabulary
    order, then the organizations found by NER that are not there yet, each
    once, in the order NER returned them; the whole is cut to 20 entries. *)
Theorem extract_skills_vocabulary_then_entities (self : ResumeAnalyzer)
  (text : string) :
  extract_skills self text
  = take 20
      (vocabulary_matches self text
       ++ filter (fun org => org ∉ vocabulary_matches self text)
            (Spec.keep_first (ner_organizations self text))).
Proof.
  rewrite extract_skills_keep_first, found_skills_spec.
  now rewrite keep_first_app by apply vocabulary_matches_NoDup.
Qed.

(** When the NER pipeline is absent, or its call on the text raises, the
    failure is swallowed: [extract_skills] returns the first 20 vocabulary
    matches. *)
Theorem extract_skills_without_entities (self : ResumeAnalyzer)
  (text : string) :
  (ner_pipeline self = None
   \/ exists run, ner_pipeline self = Some run /\ run text = None) ->
  extract_skills self text = take 20 (vocabulary_matches self text).
Proof.
  intros Hner. rewrite extract_skills_vocabulary_then_entities.
  assert (ner_organizations self text = []) as ->.
  { unfold ner_organizations.
    destruct Hner as [->|(run & -> & ->)]; reflexivity. }
  cbn [Spec.keep_first]. now rewrite filter_nil, app_nil_r.
Qed.

Lemma extract_skills_without_entities_witness :
  (ner_pipeline {| nlp := None; ner_pipeline := Some (fun _ => None) |} = None
   \/ exists run,
        ner_pipeline {| nlp := None; ner_pipeline := Some (fun _ => None) |}
        = Some run /\ run "Python and SQL" = None)
  /\ extract_skills {| nlp := None; ner_pipeline := Some (fun _ => None) |}
       "Python and SQL"
     = take 20
         (vocabulary_matches
            {| nlp := None; ner_pipeline := Some (fun _ => None) |}
            "Python and SQL").
Proof.
  assert (ner_pipeline {| nlp := None; ner_pipeline := Some (fun _ => None) |}
          = None
          \/ exists run,
               ner_pipeline
                 {| nlp := None; ner_pipeline := Some (fun _ => None) |}
               = Some run /\ run "Python and SQL" = None) as H.
  { right. exists (fun _ => None). split; reflexivity. }
  split; [exact H|].
  apply (extract_skills_without_entities
           {| nlp := None; ner_pipeline := Some (fun _ => None) |}
           "Python and SQL" H).
Defined.

End SkillsShape.

(** ** More on experience extraction *)

Section ExperiencesShape.










(** *** Blank text *)

Lemma lstrip_blank (s : string) : Str.lstrip s = EmptyString -> blank s = true.
Proof.
  induction s as [|c s IH]; [reflexivity|]. simpl.
  destruct (Char.isspace c); [exact IH|discriminate].
Qed.

Lemma strip_blank (s : string) : Str.strip s = EmptyString -> blank s = true.
Proof.
  unfold Str.strip. intros H. apply lstrip_blank.
  pose proof (begins_space_lstrip s) as Hb.
  destruct (Str.lstrip s) as [|c r]; [reflexivity|].
  cbn [begins_space] in Hb. rewrite rstrip_cons_word in H by exact Hb.
  discriminate H.
Qed.

Lemma blank_strip (s : string) : blank s = true -> Str.strip s = EmptyString.
Proof.
  intros H. unfold Str.strip.
  assert (Str.lstrip s = EmptyString) as ->; [|reflexivity].
  induction s as [|c s IH]; [reflexivity|].
  simpl in *. apply andb_true_iff in H as [-> H]. now apply IH.
Qed.

Lemma blank_lower (s : string) : blank (Str.lower s) = blank s.
Proof.
  induction s as [|c s IH]; [reflexivity|].
  simpl. now rewrite char_isspace_lower, IH.
Qed.

Lemma blank_split (s : string) : blank s = true -> Str.split s = [].
Proof.
  induction s as [|c s IH]; [reflexivity|].
  simpl. intros H. apply andb_true_iff in H as [-> H]. now apply IH.
Qed.

Lemma blank_split_on (sep : ascii) (s : string) :
  blank s = true -> Forall (fun line => blank line = true) (Str.split_on sep s).
Proof.
  induction s as [|c s IH]; [now repeat constructor|].
  simpl. intros H. apply andb_true_iff in H as [Hc H]. specialize (IH H).
  destruct (Ascii.eqb c sep).
  - now constructor.
  - destruct (Str.split_on sep s) as [|l ls].
    { constructor; [simpl; now rewrite Hc|constructor]. }
    apply Forall_cons in IH as [Hl Hls].
    constructor; [|exact Hls]. simpl. now rewrite Hc, Hl.
Qed.

(** A pattern that starts with a character other than white space does not
    occur in a blank string. *)
Lemma blank_contains (c : ascii) (p s : string) :
  Char.isspace c = false -> blank s = true ->
  Str.contains (String c p) s = false.
Proof.
  intros Hc. induction s as [|d s IH]; [reflexivity|].
  cbn [blank Str.contains Str.startswith]. intros H.
  apply andb_true_iff in H as [Hd H]. rewrite (IH H), orb_false_r.
  destruct (Ascii.eqb_spec c d) as [->|_]; [congruence|reflexivity].
Qed.

Lemma blank_extract_experiences (text : string) :
  blank text = true -> extract_experiences text = [].
Proof.
  intros H. unfold extract_experiences. rewrite experience_loop_spec.
  cbn [app]. pose proof (blank_split_on Char.newline text H) as Hlines.
  induction Hlines as [|line lines Hline _ IH]; [reflexivity|].
  cbn [List.filter]. unfold Spec.keeps_line at 1.
  rewrite (blank_strip line Hline). cbn [Str.lower String.length Nat.ltb
    Nat.leb andb]. exact IH.
Qed.

End ExperiencesShape.

(** ** More on scoring *)

Section ScoringShape.

Lemma begins_word_lower (s : string) :
  Str.begins_word (Str.lower s) = Str.begins_word s.
Proof. destruct s as [|c s]; [reflexivity|]. simpl. now rewrite char_isspace_lower. Qed.

Lemma split_lower (s : string) :
  Str.split (Str.lower s) = map Str.lower (Str.split s).
Proof.
  induction s as [|c s IH]; [reflexivity|].
  cbn [Str.lower Str.split]. rewrite char_isspace_lower, begins_word_lower, IH.
  destruct (Char.isspace c); [reflexivity|].
  destruct (Str.split s) as [|w ws]; [reflexivity|].
  cbn [map]. now destruct (Str.begins_word s).
Qed.

(** The score does not depend on the case of the letters of the text. *)
Theorem calculate_score_case_insensitive (text : string)
  (skills experiences : list string) :
  calculate_score (Str.lower text) skills experiences
  = calculate_score text skills experiences.
Proof.
  rewrite !calculate_score_unclamped.
  unfold Spec.word_count, Spec.keyword_count.
  now rewrite split_lower, length_map, lower_lower.
Qed.

Lemma skill_points_monotone (n m : nat) :
  n <= m -> (Spec.skill_points n <= Spec.skill_points m)%Z.
Proof.
  intros H. unfold Spec.skill_points.
  destruct (Nat.leb_spec 10 n), (Nat.leb_spec 10 m),
    (Nat.leb_spec 5 n), (Nat.leb_spec 5 m); lia.
Qed.

Lemma experience_points_monotone (n m : nat) :
  n <= m -> (Spec.experience_points n <= Spec.experience_points m)%Z.
Proof.
  intros H. unfold Spec.experience_points.
  destruct (Nat.leb_spec 5 n), (Nat.leb_spec 5 m),
    (Nat.leb_spec 2 n), (Nat.leb_spec 2 m); lia.
Qed.

(** For a given text, more skills and more experiences never lower the
    score. *)
Theorem calculate_score_monotone (text : string)
  (skills skills' experiences experiences' : list string) :
  length skills <= length skills' ->
  length experiences <= length experiences' ->
  (calculate_score text skills experiences
   <= calculate_score text skills' experiences')%Z.
Proof.
  intros Hs He. rewrite !calculate_score_unclamped.
  pose proof (skill_points_monotone _ _ Hs).
  pose proof (experience_points_monotone _ _ He).
  lia.
Qed.

Lemma calculate_score_monotone_witness :
  length [ "Python" ] <= length [ "Python"; "Java"; "Sql"; "Git"; "Aws" ]
  /\ length (@nil string) <= length [ "Led a team"; "Managed a release" ]
  /\ (calculate_score "python java sql git aws" [ "Python" ] []
      <= calculate_score "python java sql git aws"
           [ "Python"; "Java"; "Sql"; "Git"; "Aws" ]
           [ "Led a team"; "Managed a release" ])%Z.
Proof.
  split; [simpl; lia|]. split; [simpl; lia|].
  apply (calculate_score_monotone "python java sql git aws" [ "Python" ]
           [ "Python"; "Java"; "Sql"; "Git"; "Aws" ] []
           [ "Led a team"; "Managed a release" ]); simpl; lia.
Defined.

End ScoringShape.

(** ** More on recommendations *)

Section RecommendationsShape.

Implicit Types (text : string) (skills experiences : list string)
  (job_position : option string).

Lemma length_when (b : bool) (tip : string) : length (Spec.when b tip) <= 1.
Proof. destruct b; simpl; lia. Qed.

Lemma job_tips_cases text job_position :
  Spec.job_tips text job_position = []
  \/ exists tip, Spec.job_tips text job_position = [tip]
       /\ Str.startswith Spec.keyword_gap_opening tip = true.
Proof.
  unfold Spec.job_tips. destruct job_position as [tag|]; [|now left].
  destruct (Spec.missing_keywords text (Some tag)); [now left|].
  right. eexists. split; [reflexivity|apply tip_keywords_opening].
Qed.

Lemma when_sublist (b : bool) (tip : string) :
  Spec.when b tip `sublist_of` [tip].
Proof. destruct b; [reflexivity|apply sublist_nil_l]. Qed.

Lemma fixed_rule_tips_NoDup :
  NoDup [tip_skills; tip_achievements; tip_action_verbs; tip_metrics;
         tip_summary].
Proof. compute_done. Qed.

Lemma fixed_rule_tips_opening :
  Forall (fun tip => Str.startswith Spec.keyword_gap_opening tip = false)
    [tip_skills; tip_achievements; tip_action_verbs; tip_metrics;
     tip_summary].
Proof. repeat constructor. Qed.

(** All six tips together, for any keyword-gap tip, are pairwise
    different. *)
Lemma all_rule_tips_NoDup (tip : string) :
  Str.startswith Spec.keyword_gap_opening tip = true ->
  NoDup [tip_skills; tip_achievements; tip_action_verbs; tip_metrics; tip;
         tip_summary].
Proof.
  intros Htip.
  assert (tip ∉ [tip_skills; tip_achievements; tip_action_verbs; tip_metrics;
                 tip_summary]) as Hfresh.
  { intros Hin. pose proof fixed_rule_tips_opening as Hop.
    rewrite Forall_forall in Hop. specialize (Hop tip Hin). congruence. }
  assert ([tip_skills; tip_achievements; tip_action_verbs; tip_metrics; tip;
           tip_summary]
          ≡ₚ tip :: [tip_skills; tip_achievements; tip_action_verbs;
                     tip_metrics; tip_summary]) as ->.
  { symmetry.
    apply (Permutation_middle
             [tip_skills; tip_achievements; tip_action_verbs; tip_metrics]
             [tip_summary] tip). }
  apply NoDup_cons. split; [exact Hfresh|apply fixed_rule_tips_NoDup].
Qed.

Lemma rule_tips_NoDup text skills experiences job_position :
  NoDup (Spec.rule_tips text skills experiences job_position).
Proof.
  unfold Spec.rule_tips.
  destruct (job_tips_cases text job_position) as [->|(tip & -> & Htip)].
  - eapply sublist_NoDup; [apply fixed_rule_tips_NoDup|].
    change [tip_skills; tip_achievements; tip_action_verbs; tip_metrics;
            tip_summary]
      with ([tip_skills] ++ [tip_achievements] ++ [tip_action_verbs]
            ++ [tip_metrics] ++ [] ++ [tip_summary]).
    repeat (apply sublist_app; [apply when_sublist || reflexivity|]).
    apply when_sublist.
  - eapply sublist_NoDup; [apply (all_rule_tips_NoDup tip Htip)|].
    change [tip_skills; tip_achievements; tip_action_verbs; tip_metrics; tip;
            tip_summary]
      with ([tip_skills] ++ [tip_achievements] ++ [tip_action_verbs]
            ++ [tip_metrics] ++ [tip] ++ [tip_summary]).
    repeat (apply sublist_app; [apply when_sublist || reflexivity|]).
    apply when_sublist.
Qed.

Lemma rule_tips_length text skills experiences job_position :
  length (Spec.rule_tips text skills experiences job_position) <= 6.
Proof.
  unfold Spec.rule_tips. rewrite !length_app.
  pose proof (length_when (Nat.ltb (length skills) 8) tip_skills).
  pose proof (length_when (Nat.ltb (length experiences) 4) tip_achievements).
  pose proof (length_when
                (Nat.ltb (strong_count experiences) (weak_count experiences))
                tip_action_verbs).
  pose proof (length_when
                (Nat.ltb (2 * metrics_count experiences) (length experiences))
                tip_metrics).
  pose proof (length_when
                (negb (Str.contains "objective" (Str.lower text))
                 && negb (Str.contains "summary" (Str.lower text)))
                tip_summary).
  destruct (job_tips_cases text job_position) as [->|(tip & -> & _)];
    cbn [length]; lia.
Qed.

(** [generate_recommendations] returns between one and six tips, no tip
    twice. *)
Theorem recommendations_between_1_and_6_distinct
  text skills experiences job_position :
  1 <= length (generate_recommendations text skills experiences job_position)
       <= 6
  /\ NoDup (generate_recommendations text skills experiences job_position).
Proof.
  rewrite generate_recommendations_spec.
  pose proof (rule_tips_length text skills experiences job_position) as Hlen.
  pose proof (rule_tips_NoDup text skills experiences job_position) as Hnd.
  destruct (Spec.rule_tips text skills experiences job_position) as [|t r].
  - split; [simpl; lia|compute_done].
  - split; [simpl in *; lia|exact Hnd].
Qed.

Lemma missing_loop_spec text (keywords missing : list string) :
  fold_left (missing_step text) keywords missing
  = missing
    ++ map Str.title
         (List.filter
            (fun keyword =>
               negb (Str.contains (Str.lower keyword) (Str.lower text)))
            keywords).
Proof.
  revert missing. induction keywords as [|k keywords IH]; intros missing.
  - simpl. now rewrite app_nil_r.
  - cbn [fold_left List.filter]. rewrite IH. unfold missing_step.
    destruct (negb _); cbn [map]; [now rewrite <- app_assoc|reflexivity].
Qed.

(** Some keyword of the position is missing exactly when the collected list
    is not empty. *)
Lemma missing_keywords_nonempty text job_position :
  Spec.missing_keywords text job_position <> []
  <-> exists (tag : string) (keywords : list string) (keyword : string),
        job_position = Some tag
        /\ job_keywords !! tag = Some keywords
        /\ keyword ∈ keywords
        /\ Str.contains (Str.lower keyword) (Str.lower text) = false.
Proof.
  unfold Spec.missing_keywords. split.
  - destruct job_position as [tag|]; [|congruence].
    destruct (job_keywords !! tag) as [keywords|] eqn:Hk; [|congruence].
    rewrite missing_loop_spec. cbn [app]. intros Hne.
    exists tag, keywords.
    destruct (List.filter _ keywords) as [|k ks] eqn:Hf; [now elim Hne|].
    assert (In k (List.filter
                    (fun keyword =>
                       negb (Str.contains (Str.lower keyword) (Str.lower text)))
                    keywords)) as Hin by (rewrite Hf; now left).
    apply filter_In in Hin as [Hin Hc]. apply negb_true_iff in Hc.
    exists k. repeat split; [exact Hk|now apply list_elem_of_In|exact Hc].
  - intros (tag & keywords & k & -> & -> & Hin & Hc).
    rewrite missing_loop_spec. cbn [app].
    assert (In k (List.filter
                    (fun keyword =>
                       negb (Str.contains (Str.lower keyword) (Str.lower text)))
                    keywords)) as Hk.
    { apply filter_In. split; [now apply list_elem_of_In|].
      now rewrite Hc. }
    destruct (List.filter _ keywords); [elim Hk|discriminate].
Qed.

Lemma job_tips_nonempty text job_position :
  Spec.job_tips text job_position <> []
  <-> Spec.missing_keywords text job_position <> [].
Proof.
  unfold Spec.job_tips. destruct job_position as [tag|]; [|now split].
  destruct (Spec.missing_keywords text (Some tag)); now split.
Qed.

Lemma Exists_when_fixed (b : bool) (tip : string) :
  Str.startswith Spec.keyword_gap_opening tip = false ->
  ~ Exists (fun t => Str.startswith Spec.keyword_gap_opening t = true)
      (Spec.when b tip).
Proof.
  intros Htip. destruct b; cbn [Spec.when].
  - rewrite Exists_cons, Exists_nil. intros [H|[]]. congruence.
  - now rewrite Exists_nil.
Qed.

(** The keyword-gap tip is given exactly when the job position is one of the
    keys of [job_keywords] and one of its keywords does not occur in the
    text, compared without regard to case. *)
Theorem keyword_gap_tip_iff text skills experiences job_position :
  Exists (fun tip => Str.startswith Spec.keyword_gap_opening tip = true)
    (generate_recommendations text skills experiences job_position)
  <-> exists (tag : string) (keywords : list string) (keyword : string),
        job_position = Some tag
        /\ job_keywords !! tag = Some keywords
        /\ keyword ∈ keywords
        /\ Str.contains (Str.lower keyword) (Str.lower text) = false.
Proof.
  rewrite <- missing_keywords_nonempty, <- job_tips_nonempty,
    generate_recommendations_spec.
  assert (Exists
            (fun tip => Str.startswith Spec.keyword_gap_opening tip = true)
            (Spec.rule_tips text skills experiences job_position)
          <-> Spec.job_tips text job_position <> []) as Hrule.
  { unfold Spec.rule_tips. rewrite !Exists_app.
    pose proof (fun b tip H => Exists_when_fixed b tip H) as Hw.
    split.
    - intros [H|[H|[H|[H|[H|H]]]]];
        try (exfalso; revert H; apply Hw; reflexivity).
      intros E. rewrite E in H. now apply Exists_nil in H.
    - intros Hne. do 4 right. left.
      destruct (job_tips_cases text job_position) as [E|(tip & -> & Htip)];
        [congruence|].
      apply Exists_cons. now left. }
  destruct (Spec.rule_tips text skills experiences job_position) as [|t r]
    eqn:Etips; [|exact Hrule].
  rewrite <- Hrule. split.
  - intros H. exfalso. revert H. unfold Spec.fallback_tips.
    rewrite !Exists_cons, Exists_nil. intros [H|[H|[H|[]]]]; discriminate H.
  - intros H. now apply Exists_nil in H.
Qed.

End RecommendationsShape.

(** ** Feedback *)

Section Feedback.

Implicit Types (text : string) (skills experiences : list string) (score : Z).

(** The parts of the feedback: the headline, then the sentences whose
    condition holds, in the fixed order. *)
Lemma feedback_parts_spec text skills experiences score :
  feedback_parts text skills experiences score
  = [headline score]
    ++ Spec.when (Nat.ltb (Spec.word_count text) 150) sentence_more_content
    ++ Spec.when (negb (Nat.ltb (Spec.word_count text) 150)
                  && Nat.ltb 1000 (Spec.word_count text)) sentence_shorten
    ++ Spec.when (Nat.ltb (length skills) 5) sentence_skills
    ++ Spec.when (Nat.ltb (length experiences) 3) sentence_examples
    ++ Spec.when (negb (Str.contains "summary" (Str.lower text))
                  && negb (Str.contains "objective" (Str.lower text)))
         sentence_summary
    ++ Spec.when (negb (Str.contains "@" text)
                  && negb (Str.contains "email" (Str.lower text)))
         sentence_contact.
Proof.
  unfold feedback_parts, headline, Spec.when, Spec.word_count.
  destruct (Z.leb 80 score), (Z.leb 60 score), (Z.leb 40 score),
    (Nat.ltb (length (Str.split text)) 150),
    (Nat.ltb 1000 (length (Str.split text))),
    (Nat.ltb (length skills) 5), (Nat.ltb (length experiences) 3),
    (negb (Str.contains "summary" (Str.lower text))
     && negb (Str.contains "objective" (Str.lower text))),
    (negb (Str.contains "@" text)
     && negb (Str.contains "email" (Str.lower text)));
    reflexivity.
Qed.

Lemma startswith_append (a b : string) : Str.startswith a (a +:+ b) = true.
Proof.
  induction a as [|c a IH]; [reflexivity|].
  simpl. now rewrite Ascii.eqb_refl, IH.
Qed.

Lemma startswith_refl (a : string) : Str.startswith a a = true.
Proof.
  induction a as [|c a IH]; [reflexivity|].
  simpl. now rewrite Ascii.eqb_refl, IH.
Qed.

Lemma startswith_join_head (sep x : string) (l : list string) :
  Str.startswith x (Str.join sep (x :: l)) = true.
Proof.
  destruct l as [|y l]; [apply startswith_refl|apply startswith_append].
Qed.

Lemma feedback_headline_prefix text skills experiences score :
  Str.startswith (headline score)
    (generate_feedback text skills experiences score) = true.
Proof.
  unfold generate_feedback. rewrite feedback_parts_spec.
  apply startswith_join_head.
Qed.

(** The feedback always opens with the headline of the score band:
    excellent from 80, good from 60, fair from 40, needs improvement
    below. *)
Theorem generate_feedback_headline text skills experiences score :
  Str.startswith (headline score)
    (generate_feedback text skills experiences score) = true
  /\ headline score
     = (if Z.leb 80 score then headline_excellent
        else if Z.leb 60 score then headline_good
        else if Z.leb 40 score then headline_fair
        else headline_needs).
Proof.
  split; [apply feedback_headline_prefix|reflexivity].
Qed.

(** What the feedback text contains, by exhaustion of the conditions. *)
Lemma feedback_contains_spec text skills experiences score :
  let feedback := generate_feedback text skills experiences score in
  Str.contains sentence_more_content feedback
  = Nat.ltb (Spec.word_count text) 150
  /\ Str.contains sentence_shorten feedback
     = Nat.ltb 1000 (Spec.word_count text)
  /\ Str.contains sentence_skills feedback = Nat.ltb (length skills) 5
  /\ Str.contains sentence_examples feedback
     = Nat.ltb (length experiences) 3
  /\ Str.contains sentence_summary feedback
     = negb (Str.contains "summary" (Str.lower text))
       && negb (Str.contains "objective" (Str.lower text))
  /\ Str.contains sentence_contact feedback
     = negb (Str.contains "@" text)
       && negb (Str.contains "email" (Str.lower text))
  /\ Str.contains sentence_more_content feedback
     && Str.contains sentence_shorten feedback = false.
Proof.
  unfold generate_feedback. rewrite feedback_parts_spec.
  unfold headline.
  destruct (Nat.ltb (Spec.word_count text) 150) eqn:Hshort,
    (Nat.ltb 1000 (Spec.word_count text)) eqn:Hlong.
  { apply Nat.ltb_lt in Hshort, Hlong. lia. }
  all: destruct (Z.leb 80 score), (Z.leb 60 score), (Z.leb 40 score),
    (Nat.ltb (length skills) 5), (Nat.ltb (length experiences) 3),
    (negb (Str.contains "summary" (Str.lower text))
     && negb (Str.contains "objective" (Str.lower text))),
    (negb (Str.contains "@" text)
     && negb (Str.contains "email" (Str.lower text)));
    vm_compute; repeat split.
Qed.

(** Each optional sentence occurs in the feedback text exactly when its
    condition holds; the sentence asking for more content and the one asking
    to shorten never occur together. *)
Theorem generate_feedback_sentences text skills experiences score :
  let feedback := generate_feedback text skills experiences score in
  Str.contains sentence_more_content feedback
  = Nat.ltb (Spec.word_count text) 150
  /\ Str.contains sentence_shorten feedback
     = Nat.ltb 1000 (Spec.word_count text)
  /\ Str.contains sentence_skills feedback = Nat.ltb (length skills) 5
  /\ Str.contains sentence_examples feedback
     = Nat.ltb (length experiences) 3
  /\ Str.contains sentence_summary feedback
     = negb (Str.contains "summary" (Str.lower text))
       && negb (Str.contains "objective" (Str.lower text))
  /\ Str.contains sentence_contact feedback
     = negb (Str.contains "@" text)
       && negb (Str.contains "email" (Str.lower text))
  /\ Str.contains sentence_more_content feedback
     && Str.contains sentence_shorten feedback = false.
Proof. apply feedback_contains_spec. Qed.

End Feedback.

(** ** The whole analysis *)

Section Analysis.

Implicit Types (self : ResumeAnalyzer) (text : string)
  (job_position : option string).

Lemma generate_recommendations_length text (skills experiences : list string)
  job_position :
  1 <= length (generate_recommendations text skills experiences job_position)
       <= 6.
Proof.
  rewrite generate_recommendations_spec.
  pose proof (rule_tips_length text skills experiences job_position) as Hlen.
  destruct (Spec.rule_tips text skills experiences job_position);
    simpl in *; lia.
Qed.

Lemma headline_nonempty (score : Z) : headline score <> EmptyString.
Proof.
  unfold headline.
  destruct (Z.leb 80 score), (Z.leb 60 score), (Z.leb 40 score); discriminate.
Qed.

(** The result of [analyze] is bounded: at most 20 skills, at most 10
    experiences, a score between 25 and 100, between one and six
    recommendations, and a feedback text that is not empty. *)
Theorem analyze_result_bounds self text job_position :
  let result := analyze self text job_position in
  length (result_skills result) <= 20
  /\ length (result_experiences result) <= 10
  /\ (25 <= result_score result <= 100)%Z
  /\ 1 <= length (result_recommendations result) <= 6
  /\ result_feedback result <> EmptyString.
Proof.
  cbn [analyze result_skills result_experiences result_score result_feedback
         result_recommendations].
  split; [|split; [|split; [|split]]].
  - rewrite extract_skills_keep_first, length_take. lia.
  - unfold extract_experiences. rewrite length_take. lia.
  - rewrite calculate_score_unclamped.
    pose proof (length_points_range (Spec.word_count text)).
    pose proof (skill_points_range (length (extract_skills self text))).
    pose proof (experience_points_range (length (extract_experiences text))).
    pose proof (keyword_points_range (Spec.keyword_count text)).
    lia.
  - apply generate_recommendations_length.
  - intros E.
    pose proof (feedback_headline_prefix text (extract_skills self text)
                  (extract_experiences text)
                  (calculate_score text (extract_skills self text)
                     (extract_experiences text))) as Hp.
    rewrite E in Hp.
    pose proof (headline_nonempty
                  (calculate_score text (extract_skills self text)
                     (extract_experiences text))) as Hne.
    destruct (headline _); [congruence|discriminate Hp].
Qed.

Lemma elem_of_rule_tips (t : string) text (skills experiences : list string)
  job_position :
  t ∈ Spec.rule_tips text skills experiences job_position
  <-> (Nat.ltb (length skills) 8 = true /\ t = tip_skills)
      \/ (Nat.ltb (length experiences) 4 = true /\ t = tip_achievements)
      \/ (Nat.ltb (strong_count experiences) (weak_count experiences) = true
          /\ t = tip_action_verbs)
      \/ (Nat.ltb (2 * metrics_count experiences) (length experiences) = true
          /\ t = tip_metrics)
      \/ t ∈ Spec.job_tips text job_position
      \/ (negb (Str.contains "objective" (Str.lower text))
          && negb (Str.contains "summary" (Str.lower text)) = true
          /\ t = tip_summary).
Proof. unfold Spec.rule_tips. now rewrite !elem_of_app, !elem_of_when. Qed.

Ltac absurd_tip H :=
  exfalso;
  first [ apply elem_of_job_tips in H; vm_compute in H; discriminate H
        | vm_compute in H; discriminate H ].

Lemma tip_skills_in_rule_tips text (skills experiences : list string)
  job_position :
  tip_skills ∈ Spec.rule_tips text skills experiences job_position
  <-> Nat.ltb (length skills) 8 = true.
Proof.
  rewrite elem_of_rule_tips. split.
  - intros [[H _]|[[_ H]|[[_ H]|[[_ H]|[H|[_ H]]]]]];
      [exact H|absurd_tip H..].
  - intros H. left. now split.
Qed.

Lemma tip_achievements_in_rule_tips text (skills experiences : list string)
  job_position :
  tip_achievements ∈ Spec.rule_tips text skills experiences job_position
  <-> Nat.ltb (length experiences) 4 = true.
Proof.
  rewrite elem_of_rule_tips. split.
  - intros [[_ H]|[[H _]|[[_ H]|[[_ H]|[H|[_ H]]]]]];
      [absurd_tip H|exact H|absurd_tip H..].
  - intros H. right. left. now split.
Qed.

Lemma tip_summary_in_rule_tips text (skills experiences : list string)
  job_position :
  tip_summary ∈ Spec.rule_tips text skills experiences job_position
  <-> negb (Str.contains "objective" (Str.lower text))
      && negb (Str.contains "summary" (Str.lower text)) = true.
Proof.
  rewrite elem_of_rule_tips. split.
  - intros [[_ H]|[[_ H]|[[_ H]|[[_ H]|[H|[H _]]]]]];
      [absurd_tip H..|exact H].
  - intros H. do 5 right. now split.
Qed.

(** A tip that is not a fallback tip is returned exactly when it is among
    the tips of the rules. *)
Lemma rule_tip_returned (t : string) text (skills experiences : list string)
  job_position :
  t ∉ Spec.fallback_tips ->
  t ∈ generate_recommendations text skills experiences job_position
  <-> t ∈ Spec.rule_tips text skills experiences job_position.
Proof.
  intros Ht. rewrite generate_recommendations_spec.
  destruct (Spec.rule_tips text skills experiences job_position);
    [|reflexivity].
  split; [intros H; now elim Ht|intros H; now apply elem_of_nil in H].
Qed.

(** Feedback and recommendations of one analysis agree: when the feedback
    asks for more skills the add-skills tip is given, when it asks for more
    examples the achievements tip is given, and the summary sentence and the
    summary tip come together. *)
Theorem analyze_feedback_matches_recommendations self text job_position :
  let result := analyze self text job_position in
  (if Str.contains sentence_skills (result_feedback result)
   then tip_skills ∈ result_recommendations result else True)
  /\ (if Str.contains sentence_examples (result_feedback result)
      then tip_achievements ∈ result_recommendations result else True)
  /\ (tip_summary ∈ result_recommendations result
      <-> Str.contains sentence_summary (result_feedback result) = true).
Proof.
  cbn [analyze result_feedback result_recommendations].
  set (skills := extract_skills self text).
  set (experiences := extract_experiences text).
  set (score := calculate_score text skills experiences).
  destruct (feedback_contains_spec text skills experiences score)
    as (_ & _ & Hs & He & Hsum & _).
  rewrite Hs, He, Hsum. clear Hs He Hsum.
  split; [|split].
  - destruct (Nat.ltb_spec (length skills) 5); [|exact I].
    apply rule_tip_returned; [compute_done|].
    apply tip_skills_in_rule_tips, Nat.ltb_lt. lia.
  - destruct (Nat.ltb_spec (length experiences) 3); [|exact I].
    apply rule_tip_returned; [compute_done|].
    apply tip_achievements_in_rule_tips, Nat.ltb_lt. lia.
  - rewrite rule_tip_returned by compute_done.
    rewrite tip_summary_in_rule_tips.
    now rewrite (andb_comm (negb (Str.contains "objective" _))).
Qed.

(** *** Blank text *)

Lemma blank_contains_word (p s : string) :
  Str.begins_word p = true -> blank s = true -> Str.contains p s = false.
Proof.
  destruct p as [|c p]; [discriminate|].
  cbn [Str.begins_word]. intros Hc. apply negb_true_iff in Hc.
  now apply blank_contains.
Qed.

Lemma vocabulary_begins_word :
  forall keyword, In keyword skill_keywords ->
    Str.begins_word (Str.lower keyword) = true.
Proof.
  apply forallb_forall. vm_compute. reflexivity.
Qed.

Lemma filter_none {A} (p : A -> bool) (xs : list A) :
  (forall x, In x xs -> p x = false) -> List.filter p xs = [].
Proof.
  induction xs as [|x xs IH]; [reflexivity|].
  intros H. cbn [List.filter]. rewrite (H x) by now left.
  apply IH. intros y Hy. apply H. now right.
Qed.

(** No vocabulary term occurs in a blank string. *)
Lemma blank_vocabulary (s : string) :
  blank s = true ->
  List.filter (fun keyword => Str.contains (Str.lower keyword) s)
    skill_keywords = [].
Proof.
  intros Hs. apply filter_none. intros keyword Hin.
  apply blank_contains_word; [now apply vocabulary_begins_word|exact Hs].
Qed.

Lemma blank_preprocess_text self text :
  nlp self = None -> blank text = true ->
  preprocess_text self text = EmptyString.
Proof.
  intros Hnlp Hb. rewrite preprocess_text_fallback_words by exact Hnlp.
  rewrite blank_split; [reflexivity|now rewrite blank_lower].
Qed.

(** Without collaborators a blank text gets the degenerate analysis: no
    skill, no experience, the minimal score 25, the needs-improvement
    headline followed by all five applicable sentences, and the add-skills,
    achievements and summary tips around the keyword-gap tip of the job
    position, if any. *)
Theorem analyze_blank_text self text job_position :
  Str.strip text = EmptyString ->
  nlp self = None ->
  (ner_pipeline self = None
   \/ exists run, ner_pipeline self = Some run /\ run text = None) ->
  analyze self text job_position
  = {| result_skills := [];
       result_experiences := [];
       result_score := 25;
       result_feedback :=
         Str.join " "
           [headline_needs; sentence_more_content; sentence_skills;
            sentence_examples; sentence_summary; sentence_contact];
       result_recommendations :=
         [tip_skills; tip_achievements]
         ++ Spec.job_tips text job_position ++ [tip_summary] |}.
Proof.
  intros Hstrip Hnlp Hner. apply strip_blank in Hstrip as Hb.
  assert (blank (Str.lower text) = true) as Hbl by now rewrite blank_lower.
  assert (extract_skills self text = []) as Hskills.
  { assert (ner_organizations self text = []) as Horg.
    { unfold ner_organizations.
      destruct Hner as [->|(run & -> & ->)]; reflexivity. }
    rewrite extract_skills_keep_first, found_skills_spec, Horg, app_nil_r.
    unfold vocabulary_matches.
    rewrite (blank_preprocess_text self text Hnlp Hb).
    now rewrite (blank_vocabulary EmptyString eq_refl). }
  assert (calculate_score text [] [] = 25%Z) as Hscore.
  { rewrite calculate_score_unclamped.
    unfold Spec.word_count, Spec.keyword_count, count_if.
    rewrite (blank_split text Hb), (blank_vocabulary _ Hbl). reflexivity. }
  unfold analyze.
  rewrite Hskills, (blank_extract_experiences text Hb), Hscore.
  f_equal.
  - unfold generate_feedback. rewrite feedback_parts_spec.
    unfold Spec.word_count. rewrite (blank_split text Hb).
    rewrite !(blank_contains_word _ (Str.lower text)) by (reflexivity || exact Hbl).
    rewrite (blank_contains_word "@" text) by (reflexivity || exact Hb).
    reflexivity.
  - rewrite generate_recommendations_spec. unfold Spec.rule_tips.
    rewrite !(blank_contains_word _ (Str.lower text)) by (reflexivity || exact Hbl).
    reflexivity.
Qed.

Lemma analyze_blank_text_witness :
  Str.strip "   " = EmptyString
  /\ nlp analyzer_bare = None
  /\ (ner_pipeline analyzer_bare = None
      \/ exists run, ner_pipeline analyzer_bare = Some run /\ run "   " = None)
  /\ analyze analyzer_bare "   " (Some "web-developer")
     = {| result_skills := [];
          result_experiences := [];
          result_score := 25;
          result_feedback :=
            Str.join " "
              [headline_needs; sentence_more_content; sentence_skills;
               sentence_examples; sentence_summary; sentence_contact];
          result_recommendations :=
            [tip_skills; tip_achievements]
            ++ Spec.job_tips "   " (Some "web-developer") ++ [tip_summary] |}.
Proof.
  split; [reflexivity|]. split; [reflexivity|].
  assert (ner_pipeline analyzer_bare = None
          \/ exists run,
               ner_pipeline analyzer_bare = Some run /\ run "   " = None)
    as H by (left; reflexivity).
  split; [exact H|].
  apply (analyze_blank_text analyzer_bare "   " (Some "web-developer")
           eq_refl eq_refl H).
Defined.

End Analysis.

(** ** The request layer *)

Section RequestLayer.

Import Routes.

Variable str : exn -> string.
Variable analyzer : ResumeAnalyzer.

(** Whatever [extract_text_from_file] raises has gone through its
    [except Exception] clause. *)
Lemma extract_text_from_file_raise (file : UploadFile) (e : exn) :
  extract_text_from_file str file = Raise e ->
  exists e0,
    e = HTTPException 500 ("Error extracting text from file: " +:+ str e0).
Proof.
  unfold extract_text_from_file, try_except.
  match goal with |- context [match ?b with Return _ => _ | Raise _ => _ end] =>
    destruct b as [text|e0]
  end; [discriminate|].
  intros [= <-]. now exists e0.
Qed.

(** Every failure of [extract_text_from_file] is reported with status 500:
    a reader that raises, and also a content type that is not supported,
    whose status 400 is caught by the function's own [except Exception]. *)
Theorem extract_text_from_file_failures_are_500 (file : UploadFile)
  (e : exn) :
  extract_text_from_file str file = Raise e ->
  exists detail, e = HTTPException 500 detail.
Proof.
  intros H. apply extract_text_from_file_raise in H as [e0 ->]. eauto.
Qed.

(** A content type other than plain text, PDF and the two Word types gives
    status 500, the message of the inner status-400 exception being part of
    the detail. *)
Theorem extract_text_from_file_unsupported (file : UploadFile) :
  content_type_is file "text/plain" = false ->
  content_type_is file "application/pdf" = false ->
  content_type_is file "application/msword" = false ->
  content_type_is file
    "application/vnd.openxmlformats-officedocument.wordprocessingml.document"
  = false ->
  extract_text_from_file str file
  = Raise
      (HTTPException 500
         ("Error extracting text from file: "
          +:+ str (HTTPException 400
                     ("Unsupported file type: "
                      +:+ format_content_type (content_type file))))).
Proof.
  intros H1 H2 H3 H4. unfold extract_text_from_file.
  now rewrite H1, H2, H3, H4.
Qed.

(** The text endpoint answers a blank text with status 500, not 400: the
    status-400 exception raised by the guard is caught by the handler's
    [except Exception] clause.  It never answers with status 400, and a text
    that is not blank is analyzed. *)
Theorem analyze_resume_text_outcome (request : ResumeTextRequest) :
  match Str.strip (request_text request) with
  | EmptyString =>
      analyze_resume_text str analyzer request
      = Raise
          (HTTPException 500
             ("Error analyzing resume: "
              +:+ str (HTTPException 400 "Resume text cannot be empty")))
  | String _ _ =>
      analyze_resume_text str analyzer request
      = Return
          (analyze analyzer (request_text request)
             (request_job_position request))
  end
  /\ forall detail,
       analyze_resume_text str analyzer request
       <> Raise (HTTPException 400 detail).
Proof.
  unfold analyze_resume_text.
  destruct (Str.strip (request_text request)); split;
    try reflexivity; intros detail; discriminate.
Qed.

(** The file endpoint passes a failure of the extraction on unchanged (a
    status 500), answers an extracted text that is blank with status 400,
    and analyzes any other extracted text. *)
Theorem analyze_resume_file_outcome (file : UploadFile)
  (job_position : option string) :
  match extract_text_from_file str file with
  | Raise e => analyze_resume_file str analyzer file job_position = Raise e
  | Return text =>
      match Str.strip text with
      | EmptyString =>
          analyze_resume_file str analyzer file job_position
          = Raise
              (HTTPException 400
                 "Could not extract text from file or file is empty")
      | String _ _ =>
          analyze_resume_file str analyzer file job_position
          = Return (analyze analyzer text job_position)
      end
  end.
Proof.
  unfold analyze_resume_file.
  destruct (extract_text_from_file str file) as [text|e] eqn:Hx.
  - cbn [bind]. now destruct (Str.strip text).
  - apply extract_text_from_file_raise in Hx as [e0 ->]. reflexivity.
Qed.

End RequestLayer.

Lemma extract_text_from_file_failures_are_500_witness :
  Routes.extract_text_from_file (fun _ => "error")
    {| Routes.content_type := Some "application/pdf";
       Routes.read_decode := Routes.Return "";
       Routes.pdf_page_texts := Routes.Raise (Routes.OtherException "broken");
       Routes.docx_paragraph_texts := Routes.Return [] |}
  = Routes.Raise
      (Routes.HTTPException 500 "Error extracting text from file: error")
  /\ exists detail,
       Routes.HTTPException 500 "Error extracting text from file: error"
       = Routes.HTTPException 500 detail.
Proof.
  split; [reflexivity|].
  apply (extract_text_from_file_failures_are_500 (fun _ => "error")
           {| Routes.content_type := Some "application/pdf";
              Routes.read_decode := Routes.Return "";
              Routes.pdf_page_texts :=
                Routes.Raise (Routes.OtherException "broken");
              Routes.docx_paragraph_texts := Routes.Return [] |}).
  reflexivity.
Defined.

Lemma extract_text_from_file_unsupported_witness :
  Routes.content_type_is
    {| Routes.content_type := Some "image/png";
       Routes.read_decode := Routes.Return "";
       Routes.pdf_page_texts := Routes.Return [];
       Routes.docx_paragraph_texts := Routes.Return [] |} "text/plain"
  = false
  /\ Routes.extract_text_from_file (fun _ => "error")
       {| Routes.content_type := Some "image/png";
          Routes.read_decode := Routes.Return "";
          Routes.pdf_page_texts := Routes.Return [];
          Routes.docx_paragraph_texts := Routes.Return [] |}
     = Routes.Raise
         (Routes.HTTPException 500 "Error extracting text from file: error").
Proof.
  split; [reflexivity|].
  apply (extract_text_from_file_unsupported (fun _ => "error")
           {| Routes.content_type := Some "image/png";
              Routes.read_decode := Routes.Return "";
              Routes.pdf_page_texts := Routes.Return [];
              Routes.docx_paragraph_texts := Routes.Return [] |});
    reflexivity.
Defined.

(** ** Keyword density against skill extraction *)

Section KeywordsAndSkills.

Lemma startswith_split (p s : string) :
  Str.startswith p s = true -> exists b, s = p +:+ b.
Proof.
  revert s. induction p as [|c p IH]; intros s H.
  - now exists s.
  - destruct s as [|d s]; [discriminate H|].
    cbn [Str.startswith] in H. apply andb_true_iff in H as [Hc Hp].
    apply Ascii.eqb_eq in Hc as ->. destruct (IH s Hp) as [b ->].
    now exists b.
Qed.

Lemma contains_split (p s : string) :
  Str.contains p s = true -> exists a b, s = a +:+ p +:+ b.
Proof.
  induction s as [|d s IH]; cbn [Str.contains]; intros H.
  - rewrite orb_false_r in H. apply startswith_split in H as [b ->].
    now exists EmptyString, b.
  - apply orb_true_iff in H as [H|H].
    + apply startswith_split in H as [b ->]. now exists EmptyString, b.
    + destruct (IH H) as (a & b & ->). now exists (String d a), b.
Qed.

Lemma startswith_contains (p s : string) :
  Str.startswith p s = true -> Str.contains p s = true.
Proof. intros H. destruct s; cbn [Str.contains]; now rewrite H. Qed.

Lemma contains_append (a p b : string) :
  Str.contains p (a +:+ p +:+ b) = true.
Proof.
  induction a as [|d a IH].
  - change (Str.contains p (p +:+ b) = true).
    apply startswith_contains, startswith_append.
  - change (Str.contains p (String d (a +:+ p +:+ b)) = true).
    cbn [Str.contains]. rewrite IH. apply orb_true_r.
Qed.

Lemma begins_space_word (s : string) :
  Str.begins_word s = true -> begins_space s = false.
Proof. destruct s as [|c s]; [discriminate|]. simpl. now destruct (Char.isspace c). Qed.

Lemma begins_space_append (p b : string) :
  Str.begins_word p = true -> begins_space (p +:+ b) = false.
Proof. destruct p as [|c p]; [discriminate|]. simpl. now destruct (Char.isspace c). Qed.

Lemma sub_whitespace_word (d : ascii) (r : string) :
  Char.isspace d = false ->
  Str.sub_whitespace (String d r) = String d (Str.sub_whitespace r).
Proof.
  intros H.
  transitivity (if Char.isspace d
                then match r with
                     | String c' _ =>
                         if Char.isspace c' then Str.sub_whitespace r
                         else String Char.space (Str.sub_whitespace r)
                     | EmptyString => String Char.space EmptyString
                     end
                else String d (Str.sub_whitespace r));
    [reflexivity|now rewrite H].
Qed.

Lemma sub_whitespace_space (d d' : ascii) (r : string) :
  Char.isspace d = true ->
  Str.sub_whitespace (String d (String d' r))
  = if Char.isspace d' then Str.sub_whitespace (String d' r)
    else String Char.space (Str.sub_whitespace (String d' r)).
Proof.
  intros H.
  transitivity (if Char.isspace d
                then if Char.isspace d' then Str.sub_whitespace (String d' r)
                     else String Char.space (Str.sub_whitespace (String d' r))
                else String d (Str.sub_whitespace (String d' r)));
    [reflexivity|now rewrite H].
Qed.

Lemma sub_whitespace_last_space (d : ascii) :
  Char.isspace d = true ->
  Str.sub_whitespace (String d EmptyString) = String Char.space EmptyString.
Proof. intros H. simpl. now rewrite H. Qed.

(** Collapsing white space distributes over a concatenation whose second
    part does not start with white space. *)
Lemma sub_whitespace_append_r (x y : string) :
  begins_space y = false ->
  Str.sub_whitespace (x +:+ y) = Str.sub_whitespace x +:+ Str.sub_whitespace y.
Proof.
  intros Hy. induction x as [|d x IH]; [reflexivity|].
  change (String d x +:+ y) with (String d (x +:+ y)).
  destruct (Char.isspace d) eqn:Hd.
  - destruct x as [|d' x'].
    + change (EmptyString +:+ y) with y.
      rewrite sub_whitespace_last_space by exact Hd.
      destruct y as [|c y']; [now apply sub_whitespace_last_space|].
      cbn [begins_space] in Hy. rewrite sub_whitespace_space by exact Hd.
      now rewrite Hy.
    + change (String d' x' +:+ y) with (String d' (x' +:+ y)) in *.
      rewrite !(sub_whitespace_space d) by exact Hd.
      destruct (Char.isspace d'); now rewrite IH.
  - rewrite !(sub_whitespace_word d) by exact Hd. now rewrite IH.
Qed.

Lemma rstrip_fixed_tail (d : ascii) (x : string) :
  x <> EmptyString -> Str.rstrip (String d x) = String d x -> Str.rstrip x = x.
Proof.
  intros Hne H. cbn [Str.rstrip] in H.
  destruct (Str.rstrip x) as [|e r] eqn:Hr.
  - destruct (Char.isspace d); [discriminate H|].
    injection H as H. congruence.
  - now injection H as H.
Qed.

Lemma rstrip_fixed_single (d : ascii) :
  Str.rstrip (String d EmptyString) = String d EmptyString ->
  Char.isspace d = false.
Proof. simpl. now destruct (Char.isspace d). Qed.

(** ... and over one whose first part does not end with white space. *)
Lemma sub_whitespace_append_l (x y : string) :
  Str.rstrip x = x ->
  Str.sub_whitespace (x +:+ y) = Str.sub_whitespace x +:+ Str.sub_whitespace y.
Proof.
  induction x as [|d x IH]; [reflexivity|]. intros Hx.
  change (String d x +:+ y) with (String d (x +:+ y)).
  destruct x as [|d' x'].
  - apply rstrip_fixed_single in Hx.
    change (EmptyString +:+ y) with y.
    now rewrite !(sub_whitespace_word d) by exact Hx.
  - assert (Str.rstrip (String d' x') = String d' x') as Hx'
      by (apply (rstrip_fixed_tail d); [discriminate|exact Hx]).
    specialize (IH Hx').
    change (String d' x' +:+ y) with (String d' (x' +:+ y)) in *.
    destruct (Char.isspace d) eqn:Hd.
    + rewrite !(sub_whitespace_space d) by exact Hd.
      destruct (Char.isspace d'); now rewrite IH.
    + rewrite !(sub_whitespace_word d) by exact Hd. now rewrite IH.
Qed.

Lemma clean_pattern_spec (p : string) :
  clean_pattern p = true ->
  Str.begins_word p = true /\ Str.rstrip p = p /\ Str.sub_whitespace p = p.
Proof.
  unfold clean_pattern. rewrite !andb_true_iff, !String.eqb_eq. tauto.
Qed.

Lemma contains_nonempty (p s : string) :
  Str.begins_word p = true -> Str.contains p s = true -> s <> EmptyString.
Proof. destruct p; [discriminate|]. intros _ H ->. discriminate H. Qed.

Lemma contains_sub_whitespace (p s : string) :
  clean_pattern p = true ->
  Str.contains p s = true -> Str.contains p (Str.sub_whitespace s) = true.
Proof.
  intros Hp H. apply clean_pattern_spec in Hp as (Hb & Hr & Hs).
  apply contains_split in H as (a & b & ->).
  rewrite sub_whitespace_append_r by now apply begins_space_append.
  rewrite sub_whitespace_append_l by exact Hr.
  rewrite Hs. apply contains_append.
Qed.

Lemma startswith_word_head (c d : ascii) (p s : string) :
  Char.isspace c = false -> Char.isspace d = true ->
  Str.startswith (String c p) (String d s) = false.
Proof.
  intros Hc Hd. cbn [Str.startswith].
  destruct (Ascii.eqb_spec c d) as [->|_]; [congruence|reflexivity].
Qed.

Lemma contains_lstrip (p s : string) :
  Str.begins_word p = true ->
  Str.contains p s = true -> Str.contains p (Str.lstrip s) = true.
Proof.
  destruct p as [|c p]; [discriminate|].
  cbn [Str.begins_word]. intros Hc. apply negb_true_iff in Hc.
  induction s as [|d s IH]; [trivial|].
  cbn [Str.lstrip]. destruct (Char.isspace d) eqn:Hd; [|trivial].
  cbn [Str.contains]. rewrite (startswith_word_head c d p s Hc Hd).
  exact IH.
Qed.

Lemma startswith_nonempty (p s : string) :
  p <> EmptyString -> Str.startswith p s = true -> s <> EmptyString.
Proof. destruct p; [congruence|]. intros _ H ->. discriminate H. Qed.

Lemma rstrip_cons_nonempty (d : ascii) (s : string) :
  Str.rstrip s <> EmptyString ->
  Str.rstrip (String d s) = String d (Str.rstrip s).
Proof. intros H. cbn [Str.rstrip]. now destruct (Str.rstrip s). Qed.

Lemma startswith_rstrip (p s : string) :
  p <> EmptyString -> Str.rstrip p = p ->
  Str.startswith p s = true -> Str.startswith p (Str.rstrip s) = true.
Proof.
  revert s. induction p as [|c p IH]; [congruence|]. intros s _ Hr H.
  destruct s as [|d s]; [discriminate H|].
  cbn [Str.startswith] in H. apply andb_true_iff in H as [Hc Hp].
  apply Ascii.eqb_eq in Hc as <-.
  destruct p as [|c' p'].
  - apply rstrip_fixed_single in Hr.
    rewrite rstrip_cons_word by exact Hr.
    cbn [Str.startswith]. now rewrite Ascii.eqb_refl.
  - assert (Str.rstrip (String c' p') = String c' p') as Hr'
      by (apply (rstrip_fixed_tail c); [discriminate|exact Hr]).
    assert (Str.startswith (String c' p') (Str.rstrip s) = true) as Hs
      by (apply IH; [discriminate|exact Hr'|exact Hp]).
    rewrite rstrip_cons_nonempty
      by (eapply startswith_nonempty; [|exact Hs]; discriminate).
    cbn [Str.startswith]. cbn [Str.startswith] in Hs.
    now rewrite Ascii.eqb_refl, Hs.
Qed.

Lemma contains_rstrip (p s : string) :
  Str.begins_word p = true -> Str.rstrip p = p ->
  Str.contains p s = true -> Str.contains p (Str.rstrip s) = true.
Proof.
  intros Hb Hr. induction s as [|d s IH]; [trivial|].
  cbn [Str.contains]. intros H. apply orb_true_iff in H as [H|H].
  - apply startswith_rstrip in H; [|now destruct p|exact Hr].
    now apply startswith_contains.
  - specialize (IH H).
    rewrite rstrip_cons_nonempty by (eapply contains_nonempty; eassumption).
    cbn [Str.contains]. rewrite IH. apply orb_true_r.
Qed.

(** A clean pattern found in a text is still found after the fallback
    preprocessing of the text has collapsed and trimmed the white space. *)
Lemma contains_strip_sub_whitespace (p s : string) :
  clean_pattern p = true ->
  Str.contains p s = true ->
  Str.contains p (Str.strip (Str.sub_whitespace s)) = true.
Proof.
  intros Hp H. pose proof (clean_pattern_spec p Hp) as (Hb & Hr & _).
  unfold Str.strip. apply contains_rstrip; [exact Hb|exact Hr|].
  apply contains_lstrip; [exact Hb|].
  now apply contains_sub_whitespace.
Qed.

Lemma vocabulary_clean :
  forall keyword, In keyword skill_keywords ->
    clean_pattern (Str.lower keyword) = true.
Proof. apply forallb_forall. vm_compute. reflexivity. Qed.

Lemma filter_length_le {A} (p q : A -> bool) (xs : list A) :
  (forall x, In x xs -> p x = true -> q x = true) ->
  length (List.filter p xs) <= length (List.filter q xs).
Proof.
  induction xs as [|x xs IH]; [reflexivity|]. intros H.
  assert (length (List.filter p xs) <= length (List.filter q xs)) as Hle
    by (apply IH; intros y Hy; apply H; now right).
  cbn [List.filter]. destruct (p x) eqn:Hp.
  - rewrite (H x) by (trivial; now left). simpl. lia.
  - destruct (q x); simpl; lia.
Qed.

Lemma keyword_count_le_vocabulary_matches (self : ResumeAnalyzer)
  (text : string) :
  nlp self = None ->
  Spec.keyword_count text <= length (vocabulary_matches self text).
Proof.
  intros Hnlp. unfold Spec.keyword_count, count_if, vocabulary_matches.
  rewrite length_map. apply filter_length_le. intros keyword Hin H.
  unfold preprocess_text. rewrite Hnlp.
  apply contains_strip_sub_whitespace; [now apply vocabulary_clean|exact H].
Qed.

(** Without the spaCy pipeline, every vocabulary term counted by the
    keyword-density factor of the score is also found by the skill scan: up
    to the cap of 20, [extract_skills] returns at least as many skills as
    the raw text contains vocabulary terms. *)
Theorem extract_skills_at_least_keyword_count (self : ResumeAnalyzer)
  (text : string) :
  nlp self = None ->
  Nat.min 20 (Spec.keyword_count text) <= length (extract_skills self text).
Proof.
  intros Hnlp.
  pose proof (keyword_count_le_vocabulary_matches self text Hnlp) as Hle.
  rewrite extract_skills_keep_first, found_skills_spec.
  rewrite keep_first_app by apply vocabulary_matches_NoDup.
  rewrite length_take, length_app. lia.
Qed.

Lemma extract_skills_at_least_keyword_count_witness :
  nlp analyzer_with_ner = None
  /\ Nat.min 20 (Spec.keyword_count "PYTHON developer")
     <= length (extract_skills analyzer_with_ner "PYTHON developer").
Proof.
  split; [reflexivity|].
  apply (extract_skills_at_least_keyword_count analyzer_with_ner
           "PYTHON developer").
  reflexivity.
Defined.

End KeywordsAndSkills.
